(** * OllamaEmbedder: a verified model of
      [src/memmachine/common/embedder/ollama_embedder.py]

    The embedder turns a list of inputs into a list of embedding vectors by
    posting one request per input to an Ollama service.  The Python code is
    embedded shallowly: Python values are an inductive type, exceptions are a
    result type, and everything the code does to the outside world (reading
    the monotonic clock, opening the HTTP session, posting, registering and
    emitting metrics) is an event appended to a trace that is threaded through
    a small trace-and-exception monad.  The outside world itself (the
    service's answers and the clock's readings) is an environment the theorems
    quantify over. *)

From Stdlib Require Import ZArith Floats Ascii String.
From stdpp Require Import base list strings pretty.

Set Warnings "-register-all".

Open Scope string_scope.
Open Scope Z_scope.
Open Scope list_scope.

(** ** Python values *)

(** An instance of a user-defined class that defines neither its truth value
    nor [replace], [keys] or subscription.  Only what the embedder can observe
    is kept: the class name (for error messages), whether the class derives
    from [MetricsFactory] (for [isinstance]), and an identity. *)
Record pyobj := PyObject {
  obj_class : string;
  obj_is_metrics_factory : bool;
  obj_id : nat
}.

(** The values the embedder receives ([list[Any]], configuration values) and
    gets back from [response.json()].  A [str] is kept as its UTF-8 bytes: the
    newline byte never occurs inside a multi-byte sequence, so replacing
    newlines byte-wise and code-point-wise agree.  A [dict] keeps its
    insertion order. *)
Inductive pyval :=
| PyNone
| PyBool (b : bool)
| PyInt (z : Z)
| PyFloat (f : float)
| PyStr (s : string)
| PyBytes (bs : list Byte.byte)
| PyList (l : list pyval)
| PyDict (d : list (string * pyval))
| PyObj (o : pyobj).

(** [bool(x)], as used by [if input] and [if not inputs]. *)
Definition truthy (x : pyval) : bool :=
  match x with
  | PyNone => false
  | PyBool b => b
  | PyInt z => negb (z =? 0)%Z
  | PyFloat f => negb (PrimFloat.eqb f 0%float)
  | PyStr s => negb (String.eqb s "")
  | PyBytes bs => match bs with [] => false | _ => true end
  | PyList l => match l with [] => false | _ => true end
  | PyDict d => match d with [] => false | _ => true end
  | PyObj _ => true
  end.

(** [type(x).__name__]. *)
Definition type_name (x : pyval) : string :=
  match x with
  | PyNone => "NoneType"
  | PyBool _ => "bool"
  | PyInt _ => "int"
  | PyFloat _ => "float"
  | PyStr _ => "str"
  | PyBytes _ => "bytes"
  | PyList _ => "list"
  | PyDict _ => "dict"
  | PyObj o => obj_class o
  end.

(** ** Exceptions *)

(** The exception classes that occur.  [CancelledError] stands for the
    classes that derive from [BaseException] but not from [Exception]. *)
Inductive exn_class :=
| AttributeError
| TypeError
| KeyError
| ValueError
| RuntimeError
| ClientError
| TimeoutError
| CancelledError.

(** An exception: its class and [str(e)]. *)
Record exn := Exn { exn_cls : exn_class; exn_str : string }.

(** [isinstance(e, Exception)]: what [except Exception] catches. *)
Definition is_Exception (e : exn) : bool :=
  match exn_cls e with
  | CancelledError => false
  | _ => true
  end.

Inductive Result (A : Type) :=
| Ok (a : A)
| Raise (e : exn).
Arguments Ok {A} a.
Arguments Raise {A} e.

(** ** Pure operations on values *)

(** The newline character. *)
Definition LF : ascii := "010"%char.

Fixpoint is_prefix (p s : string) : bool :=
  match p, s with
  | EmptyString, _ => true
  | String a p', String b s' => Ascii.eqb a b && is_prefix p' s'
  | String _ _, EmptyString => false
  end.

(** [s.replace(old, new)] for a non-empty [old]: scan from the left; where
    [old] starts, put [new] and skip the rest of the occurrence ([skip]
    counts the characters still to drop). *)
Fixpoint replace_from (old new : string) (skip : nat) (s : string) : string :=
  match s with
  | EmptyString => EmptyString
  | String c s' =>
      match skip with
      | S k => replace_from old new k s'
      | O =>
          if is_prefix old s
          then new +:+ replace_from old new (Nat.pred (String.length old)) s'
          else String c (replace_from old new O s')
      end
  end.

Definition str_replace (s old new : string) : string :=
  replace_from old new O s.


(** The method call [x.replace("\n", " ")] on a value: [str] has
    the method, [bytes] has it but rejects [str] arguments, the other types
    have no such attribute. *)
Definition call_replace (x : pyval) : Result pyval :=
  match x with
  | PyStr s => Ok (PyStr (str_replace s (String LF "") " "))
  | PyBytes _ =>
      Raise (Exn TypeError "a bytes-like object is required, not 'str'")
  | _ =>
      Raise (Exn AttributeError
               ("'" +:+ type_name x +:+ "' object has no attribute 'replace'"))
  end.

(** One element of the comprehension
    [input.replace("\n", " ") if input else " "]. *)
Definition clean_input (input : pyval) : Result pyval :=
  if truthy input then call_replace input else Ok (PyStr " ").

(** The list comprehension: elements are evaluated left to right and the
    first exception leaves the comprehension. *)
Fixpoint clean_inputs (inputs : list pyval) : Result (list pyval) :=
  match inputs with
  | [] => Ok []
  | input :: rest =>
      match clean_input input with
      | Raise e => Raise e
      | Ok c =>
          match clean_inputs rest with
          | Raise e => Raise e
          | Ok cs => Ok (c :: cs)
          end
      end
  end.

Fixpoint dict_get (k : string) (d : list (string * pyval)) : option pyval :=
  match d with
  | [] => None
  | (k', v) :: d' => if String.eqb k k' then Some v else dict_get k d'
  end.

(** The subscription [x[k]] with a [str] key [k] (messages of CPython 3.12). *)
Definition getitem (x : pyval) (k : string) : Result pyval :=
  match x with
  | PyDict d =>
      match dict_get k d with
      | Some v => Ok v
      | None => Raise (Exn KeyError ("'" +:+ k +:+ "'"))
      end
  | PyList _ =>
      Raise (Exn TypeError "list indices must be integers or slices, not str")
  | PyStr _ =>
      Raise (Exn TypeError "string indices must be integers, not 'str'")
  | PyBytes _ =>
      Raise (Exn TypeError "byte indices must be integers or slices, not str")
  | _ =>
      Raise (Exn TypeError
               ("'" +:+ type_name x +:+ "' object is not subscriptable"))
  end.

(** The method call [x.keys()]. *)
Definition call_keys (x : pyval) : Result (list string) :=
  match x with
  | PyDict d => Ok (map fst d)
  | _ =>
      Raise (Exn AttributeError
               ("'" +:+ type_name x +:+ "' object has no attribute 'keys'"))
  end.

(** [isinstance(x, MetricsFactory)]. *)
Definition isinstance_MetricsFactory (x : pyval) : bool :=
  match x with
  | PyObj o => obj_is_metrics_factory o
  | _ => false
  end.

Definition is_None (x : pyval) : bool :=
  match x with
  | PyNone => true
  | _ => false
  end.

(** ** The outside world *)

(** What [session.post(url, json=..., timeout=ClientTimeout(total=...))]
    sends. *)
Record Request := {
  req_url : string;
  req_json : pyval;
  req_timeout_total : Z
}.

(** The response object: its [status], and what awaiting [response.json()]
    and [response.text()] gives (either may raise: wrong content type,
    undecodable body, connection lost while reading, timeout). *)
Record Response := {
  status : Z;
  json : Result pyval;
  text : Result string
}.

(** Entering [async with session.post(...)] either raises (connection error,
    timeout) or binds a response. *)
Inductive HttpOutcome :=
| PostRaises (e : exn)
| PostReturns (r : Response).

(** Modelled from the spec: the [MetricsFactory] class and the counter and
    summary objects it creates are not part of the sources.  The spec gives
    their shape, [get_counter(name, help_text, label_names)] returning a
    counter with [increment(value, labels)] and
    [get_summary(name, help_text, label_names)] returning a summary with
    [observe(value, labels)]: a metric is identified by the factory that made
    it and the arguments it was made with, and each call is recorded as an
    event and returns. *)
Record Metric := {
  metric_factory : pyobj;
  metric_name : string;
  metric_help : string;
  metric_label_names : list string
}.

(** Everything the embedder does to the outside world, in the order it does
    it. *)
Inductive Event :=
| EMonotonic (t : float)
| ESessionOpen
| ESessionClose
| EPost (rq : Request)
| EReply (o : HttpOutcome)
| EGetCounter (m : Metric)
| EGetSummary (m : Metric)
| EIncrement (c : Metric) (value : Z) (labels : pyval)
| EObserve (m : Metric) (value : float) (labels : pyval).

Definition is_post (e : Event) : bool :=
  match e with EPost _ => true | _ => false end.

Definition is_clock (e : Event) : bool :=
  match e with EMonotonic _ => true | _ => false end.

Definition is_http (e : Event) : bool :=
  match e with EPost _ | EReply _ => true | _ => false end.

Definition is_metric (e : Event) : bool :=
  match e with
  | EGetCounter _ | EGetSummary _ | EIncrement _ _ _ | EObserve _ _ _ => true
  | _ => false
  end.

(** The number of requests posted, and of clock readings taken, so far. *)
Definition count_posts (tr : list Event) : nat :=
  length (List.filter is_post tr).
Definition count_clock (tr : list Event) : nat :=
  length (List.filter is_clock tr).

(** The environment: the service's answer to the [k]-th request ever posted
    (it may depend on [k], on the request, or on both), and the [k]-th reading
    of [time.monotonic()]. *)
Record Env := {
  http : nat -> Request -> HttpOutcome;
  monotonic : nat -> float
}.

(** ** The trace-and-exception monad *)

Definition M (A : Type) : Type := list Event -> Result A * list Event.

Definition ret {A} (a : A) : M A := fun tr => (Ok a, tr).

Definition raise {A} (e : exn) : M A := fun tr => (Raise e, tr).

Definition bind {A B} (c : M A) (k : A -> M B) : M B :=
  fun tr =>
    match c tr with
    | (Ok a, tr') => k a tr'
    | (Raise e, tr') => (Raise e, tr')
    end.

Notation "'let*' x ':=' c 'in' k" := (bind c (fun x => k))
  (at level 10, x pattern, c at level 100, k at level 200).

Notation "c ';;' k" := (bind c (fun _ => k))
  (at level 100, k at level 200, right associativity).

(** A pure computation that may raise. *)
Definition lift {A} (r : Result A) : M A := fun tr => (r, tr).

Definition emit (e : Event) : M unit := fun tr => (Ok tt, tr ++ [e]).

(** [try: body / except Exception as e: handler e]. *)
Definition try_except {A} (body : M A) (handler : exn -> M A) : M A :=
  fun tr =>
    match body tr with
    | (Ok a, tr') => (Ok a, tr')
    | (Raise e, tr') =>
        if is_Exception e then handler e tr' else (Raise e, tr')
    end.

(** [async with aiohttp.ClientSession() as session: body]: the session is
    closed on every way out of the body. *)
Definition with_session {A} (body : M A) : M A :=
  fun tr =>
    let '(r, tr') := body (tr ++ [ESessionOpen]) in
    (r, tr' ++ [ESessionClose]).

(** Reading an attribute that [__init__] may not have set. *)
Definition getattr {A} (field : option A) (name : string) : M A :=
  match field with
  | Some a => ret a
  | None =>
      raise (Exn AttributeError
               ("'OllamaEmbedder' object has no attribute '" +:+ name +:+ "'"))
  end.

(** ** The embedder *)

(** The configuration mapping, one field per recognised key; [None] is an
    absent key, [Some v] a key present with value [v] (possibly [PyNone]).
    The base URL is a [str], as the docstring of [__init__] has it. *)
Record Config := {
  cfg_model : option pyval;
  cfg_base_url : option string;
  cfg_metrics_factory : option pyval;
  cfg_user_metrics_labels : option pyval
}.

(** The attributes of an [OllamaEmbedder]; the last three are set only when a
    metrics factory was given. *)
Record OllamaEmbedder := {
  _model : pyval;
  _base_url : string;
  _endpoint : string;
  _collect_metrics : bool;
  _user_metrics_labels : option pyval;
  _request_counter : option Metric;
  _latency_summary : option Metric
}.

(** The method calls [f.get_counter(...)] and [f.get_summary(...)]. *)
Definition call_get_counter (f : pyval) (name help : string)
    (label_names : list string) : M Metric :=
  match f with
  | PyObj o =>
      let m := {| metric_factory := o; metric_name := name;
                  metric_help := help; metric_label_names := label_names |} in
      emit (EGetCounter m) ;; ret m
  | _ =>
      raise (Exn AttributeError
               ("'" +:+ type_name f +:+ "' object has no attribute 'get_counter'"))
  end.

Definition call_get_summary (f : pyval) (name help : string)
    (label_names : list string) : M Metric :=
  match f with
  | PyObj o =>
      let m := {| metric_factory := o; metric_name := name;
                  metric_help := help; metric_label_names := label_names |} in
      emit (EGetSummary m) ;; ret m
  | _ =>
      raise (Exn AttributeError
               ("'" +:+ type_name f +:+ "' object has no attribute 'get_summary'"))
  end.

Definition increment (c : Metric) (value : Z) (labels : pyval) : M unit :=
  emit (EIncrement c value labels).

Definition observe (m : Metric) (value : float) (labels : pyval) : M unit :=
  emit (EObserve m value labels).

(** [OllamaEmbedder.__init__]. *)
Definition __init__ (config : Config) : M OllamaEmbedder :=
  let model := default (PyStr "nomic-embed-text") (cfg_model config) in
  let base_url := default "http://ollama:11434" (cfg_base_url config) in
  let endpoint := base_url +:+ "/api/embeddings" in
  let metrics_factory := default PyNone (cfg_metrics_factory config) in
  if negb (is_None metrics_factory)
     && negb (isinstance_MetricsFactory metrics_factory)
  then raise (Exn TypeError
                "Metrics factory must be an instance of MetricsFactory")
  else if negb (is_None metrics_factory)
  then
    let user_metrics_labels :=
      default (PyDict []) (cfg_user_metrics_labels config) in
    let* label_names := lift (call_keys user_metrics_labels) in
    let* request_counter :=
      call_get_counter metrics_factory
        "embedder_ollama_usage_requests"
        "Number of requests to Ollama embedder"
        label_names in
    let* latency_summary :=
      call_get_summary metrics_factory
        "embedder_ollama_latency_seconds"
        "Latency in seconds for Ollama embedder requests"
        label_names in
    ret {| _model := model; _base_url := base_url; _endpoint := endpoint;
           _collect_metrics := true;
           _user_metrics_labels := Some user_metrics_labels;
           _request_counter := Some request_counter;
           _latency_summary := Some latency_summary |}
  else
    ret {| _model := model; _base_url := base_url; _endpoint := endpoint;
           _collect_metrics := false;
           _user_metrics_labels := None;
           _request_counter := None;
           _latency_summary := None |}.

Section Embed.

Variable env : Env.

(** [time.monotonic()]. *)
Definition time_monotonic : M float :=
  fun tr =>
    let t := monotonic env (count_clock tr) in
    (Ok t, tr ++ [EMonotonic t]).

(** Entering [async with session.post(url, json=..., timeout=...)]: the
    request goes out, and the awaiting caller goes on only when the service
    has answered or the attempt has failed.  The request is the
    [count_posts tr]-th the environment sees. *)
Definition session_post (url : string) (payload : pyval) (total : Z)
    : M Response :=
  fun tr =>
    let rq := {| req_url := url; req_json := payload;
                 req_timeout_total := total |} in
    let o := http env (count_posts tr) rq in
    let tr' := tr ++ [EPost rq; EReply o] in
    match o with
    | PostRaises e => (Raise e, tr')
    | PostReturns r => (Ok r, tr')
    end.

(** The body of the [try] for one cleaned input: the value appended to
    [embeddings]. *)
Definition request_embedding (self : OllamaEmbedder) (input_text : pyval)
    : M pyval :=
  let payload :=
    PyDict [("model", _model self); ("prompt", input_text)] in
  let* response := session_post (_endpoint self) payload 30 in
  if (status response =? 200)%Z
  then
    let* result := lift (json response) in
    lift (getitem result "embedding")
  else
    let* error_text := lift (text response) in
    raise (Exn ClientError
             ("Ollama API error " +:+ pretty (status response)
              +:+ ": " +:+ error_text)).

(** The [for] loop over the cleaned inputs, with its [try]/[except]. *)
Fixpoint embed_loop (self : OllamaEmbedder) (cleaned_inputs : list pyval)
    (embeddings : list pyval) : M (list pyval) :=
  match cleaned_inputs with
  | [] => ret embeddings
  | input_text :: rest =>
      let* v :=
        try_except (request_embedding self input_text)
          (fun e =>
             raise (Exn RuntimeError
                      ("Failed to get embedding from Ollama: "
                       +:+ exn_str e))) in
      embed_loop self rest (embeddings ++ [v])
  end.

(** [OllamaEmbedder._embed]. *)
Definition _embed (self : OllamaEmbedder) (inputs : list pyval)
    : M (list pyval) :=
  match inputs with
  | [] => ret []
  | _ :: _ =>
      let* cleaned_inputs := lift (clean_inputs inputs) in
      let* start_time := time_monotonic in
      let* embeddings :=
        with_session (embed_loop self cleaned_inputs []) in
      let* end_time := time_monotonic in
      (if _collect_metrics self
       then
         let* counter := getattr (_request_counter self) "_request_counter" in
         let* labels :=
           getattr (_user_metrics_labels self) "_user_metrics_labels" in
         increment counter (Z.of_nat (length inputs)) labels ;;
         let* summary := getattr (_latency_summary self) "_latency_summary" in
         let* labels :=
           getattr (_user_metrics_labels self) "_user_metrics_labels" in
         observe summary (end_time - start_time)%float labels
       else ret tt) ;;
      ret embeddings
  end.

Definition ingest_embed (self : OllamaEmbedder) (inputs : list pyval)
    : M (list pyval) :=
  _embed self inputs.

Definition search_embed (self : OllamaEmbedder) (queries : list pyval)
    : M (list pyval) :=
  _embed self queries.

End Embed.

(** ** What the claims talk about *)

(** The request posted for one cleaned input. *)
Definition request_for (self : OllamaEmbedder) (prompt : pyval) : Request :=
  {| req_url := _endpoint self;
     req_json := PyDict [("model", _model self); ("prompt", prompt)];
     req_timeout_total := 30 |}.

(** A request succeeds with [v]: the service answers 200 with a JSON object
    whose [embedding] field is [v]. *)
Definition request_succeeds (o : HttpOutcome) (v : pyval) : Prop :=
  exists r d,
    o = PostReturns r /\ status r = 200 /\ json r = Ok (PyDict d)
    /\ dict_get "embedding" d = Some v.

(** A request fails with cause [e], by failure mode. *)
Inductive request_fails : HttpOutcome -> exn -> Prop :=
| fails_transport e :
    (* network error or timeout before a response was there *)
    request_fails (PostRaises e) e
| fails_status r body :
    (* non-200 status; the cause carries the status and the body text *)
    status r <> 200 -> text r = Ok body ->
    request_fails (PostReturns r)
      (Exn ClientError
         ("Ollama API error " +:+ pretty (status r) +:+ ": " +:+ body))
| fails_status_unread r e :
    (* non-200 status, and reading the body text failed as well *)
    status r <> 200 -> text r = Raise e ->
    request_fails (PostReturns r) e
| fails_body r e :
    (* 200, but the body could not be read or is not JSON *)
    status r = 200 -> json r = Raise e ->
    request_fails (PostReturns r) e
| fails_malformed r result e :
    (* 200 and JSON, but without an [embedding] field *)
    status r = 200 -> json r = Ok result ->
    getitem result "embedding" = Raise e ->
    request_fails (PostReturns r) e.

(** The request for the input at hand is the [k]-th posted; it goes out
    because the input could be cleaned, and it succeeds with [v]. *)
Definition item_succeeds (env : Env) (self : OllamaEmbedder) (k : nat)
    (input v : pyval) : Prop :=
  exists prompt,
    clean_input input = Ok prompt
    /\ request_succeeds (http env k (request_for self prompt)) v.

Definition item_fails (env : Env) (self : OllamaEmbedder) (k : nat)
    (input : pyval) (e : exn) : Prop :=
  exists prompt,
    clean_input input = Ok prompt
    /\ request_fails (http env k (request_for self prompt)) e.

(** The uniform error of the [except] clause. *)
Definition embedding_failed (cause : exn) : exn :=
  Exn RuntimeError ("Failed to get embedding from Ollama: " +:+ exn_str cause).

(** The spec's wording of the sanitisation of a text: every newline
    character becomes one space. *)
Fixpoint newlines_to_spaces (s : string) : string :=
  match s with
  | EmptyString => EmptyString
  | String c s' =>
      String (if Ascii.eqb c LF then " "%char else c) (newlines_to_spaces s')
  end.

Fixpoint has_newline (s : string) : bool :=
  match s with
  | EmptyString => false
  | String c s' => Ascii.eqb c LF || has_newline s'
  end.

(** The spec's wording of the prompt for an input item that is a text or is
    falsy: the text with every newline replaced by one space; one space when
    the item is the empty text or another falsy value. *)
Definition sanitized (x : pyval) : string :=
  match x with
  | PyStr s => if String.eqb s "" then " " else newlines_to_spaces s
  | _ => " "
  end.

(** The request the spec describes for an input item: a POST to the
    configured endpoint, with the model and the sanitized item as body and a
    total timeout of 30 seconds. *)
Definition request_of_item (self : OllamaEmbedder) (x : pyval) : Request :=
  {| req_url := _endpoint self;
     req_json := PyDict [("model", _model self);
                         ("prompt", PyStr (sanitized x))];
     req_timeout_total := 30 |}.

(** The events of [n] consecutive requests, the first being the [k]-th
    posted: each request is followed by its reply. *)
Fixpoint exchanges (env : Env) (self : OllamaEmbedder) (k : nat)
    (prompts : list pyval) : list Event :=
  match prompts with
  | [] => []
  | p :: rest =>
      EPost (request_for self p)
      :: EReply (http env k (request_for self p))
      :: exchanges env self (S k) rest
  end.

(** ** The loop as a pure function of the environment *)

(** What the body of the [try] evaluates to, given the outcome of the
    request. *)
Definition body_result (o : HttpOutcome) : Result pyval :=
  match o with
  | PostRaises e => Raise e
  | PostReturns r =>
      if (status r =? 200)%Z
      then
        match json r with
        | Ok result => getitem result "embedding"
        | Raise e => Raise e
        end
      else
        match text r with
        | Ok error_text =>
            Raise (Exn ClientError
                     ("Ollama API error " +:+ pretty (status r)
                      +:+ ": " +:+ error_text))
        | Raise e => Raise e
        end
  end.

(** What leaves the [try] when its body raises [e]: the uniform error if
    [except Exception] catches [e], else [e] itself. *)
Definition reraised (e : exn) : exn :=
  if is_Exception e then embedding_failed e else e.

(** The [try]/[except] around the body. *)
Definition guarded (r : Result pyval) : Result pyval :=
  match r with
  | Ok v => Ok v
  | Raise e => Raise (reraised e)
  end.

Fixpoint loop_result (env : Env) (self : OllamaEmbedder) (k : nat)
    (prompts : list pyval) (acc : list pyval) : Result (list pyval) :=
  match prompts with
  | [] => Ok acc
  | p :: rest =>
      match guarded (body_result (http env k (request_for self p))) with
      | Ok v => loop_result env self (S k) rest (acc ++ [v])
      | Raise e => Raise e
      end
  end.

(** How many requests the loop posts: all of them, or those up to the first
    that fails. *)
Fixpoint loop_posts (env : Env) (self : OllamaEmbedder) (k : nat)
    (prompts : list pyval) : nat :=
  match prompts with
  | [] => O
  | p :: rest =>
      match body_result (http env k (request_for self p)) with
      | Ok _ => S (loop_posts env self (S k) rest)
      | Raise _ => 1%nat
      end
  end.

(** The metrics block at the end of [_embed], when the attributes it reads
    are set. *)
Definition metrics_events (self : OllamaEmbedder) (n : nat)
    (start_time end_time : float) : option (list Event) :=
  if _collect_metrics self
  then
    match _request_counter self, _user_metrics_labels self,
          _latency_summary self with
    | Some c, Some labels, Some m =>
        Some [EIncrement c (Z.of_nat n) labels;
              EObserve m (end_time - start_time)%float labels]
    | _, _, _ => None
    end
  else Some [].

(** A client that [__init__] has returned. *)
Definition constructed (self : OllamaEmbedder) : Prop :=
  exists config tr0 tr1, __init__ config tr0 = (Ok self, tr1).

(** What one call of [_embed] does up to and including the closing of the
    session, given the cleaned inputs: the first clock reading, the session,
    and the requests the loop posts. *)
Definition session_events (env : Env) (self : OllamaEmbedder)
    (tr : list Event) (prompts : list pyval) : list Event :=
  EMonotonic (monotonic env (count_clock tr))
  :: ESessionOpen
  :: exchanges env self (count_posts tr)
       (take (loop_posts env self (count_posts tr) prompts) prompts)
  ++ [ESessionClose].


(** The three ways a call on a non-empty list can go. *)
Inductive call_shape (env : Env) (self : OllamaEmbedder)
    (inputs : list pyval) (tr : list Event)
    : Result (list pyval) -> list Event -> Prop :=
| shape_unclean e :
    clean_inputs inputs = Raise e ->
    call_shape env self inputs tr (Raise e) []
| shape_failed prompts e :
    clean_inputs inputs = Ok prompts ->
    loop_result env self (count_posts tr) prompts [] = Raise e ->
    call_shape env self inputs tr (Raise e)
      (session_events env self tr prompts)
| shape_returned prompts vs evs :
    clean_inputs inputs = Ok prompts ->
    loop_result env self (count_posts tr) prompts [] = Ok vs ->
    metrics_events self (length inputs)
      (monotonic env (count_clock tr)) (monotonic env (S (count_clock tr)))
    = Some evs ->
    call_shape env self inputs tr (Ok vs)
      (session_events env self tr prompts
       ++ EMonotonic (monotonic env (S (count_clock tr))) :: evs).

(** ** Concrete configurations, clients and services *)

Module Sample.

(** [OllamaEmbedder({})]. *)
Definition default_config : Config :=
  {| cfg_model := None; cfg_base_url := None;
     cfg_metrics_factory := None; cfg_user_metrics_labels := None |}.

Definition plain_client : OllamaEmbedder :=
  {| _model := PyStr "nomic-embed-text";
     _base_url := "http://ollama:11434";
     _endpoint := "http://ollama:11434/api/embeddings";
     _collect_metrics := false;
     _user_metrics_labels := None;
     _request_counter := None;
     _latency_summary := None |}.

(** [OllamaEmbedder({"metrics_factory": None})]. *)
Definition none_factory_config : Config :=
  {| cfg_model := None; cfg_base_url := None;
     cfg_metrics_factory := Some PyNone; cfg_user_metrics_labels := None |}.

(** [OllamaEmbedder({"metrics_factory": "prometheus"})]. *)
Definition bad_factory_config : Config :=
  {| cfg_model := None; cfg_base_url := None;
     cfg_metrics_factory := Some (PyStr "prometheus");
     cfg_user_metrics_labels := None |}.

Definition factory : pyobj :=
  {| obj_class := "PrometheusMetricsFactory";
     obj_is_metrics_factory := true; obj_id := 0 |}.

Definition labels : pyval := PyDict [("service", PyStr "memmachine")].

(** [OllamaEmbedder({"metrics_factory": factory,
                     "user_metrics_labels": {"service": "memmachine"}})]. *)
Definition metrics_config : Config :=
  {| cfg_model := None; cfg_base_url := None;
     cfg_metrics_factory := Some (PyObj factory);
     cfg_user_metrics_labels := Some labels |}.

Definition usage_counter : Metric :=
  {| metric_factory := factory;
     metric_name := "embedder_ollama_usage_requests";
     metric_help := "Number of requests to Ollama embedder";
     metric_label_names := ["service"] |}.

Definition latency_summary : Metric :=
  {| metric_factory := factory;
     metric_name := "embedder_ollama_latency_seconds";
     metric_help := "Latency in seconds for Ollama embedder requests";
     metric_label_names := ["service"] |}.

Definition metered_client : OllamaEmbedder :=
  {| _model := PyStr "nomic-embed-text";
     _base_url := "http://ollama:11434";
     _endpoint := "http://ollama:11434/api/embeddings";
     _collect_metrics := true;
     _user_metrics_labels := Some labels;
     _request_counter := Some usage_counter;
     _latency_summary := Some latency_summary |}.

Definition answer (st : Z) (body : Result pyval) (txt : string)
    : HttpOutcome :=
  PostReturns {| status := st; json := body; text := Ok txt |}.

Definition vec_cat : pyval := PyList [PyFloat 0.25; PyFloat (-1)].
Definition vec_space : pyval := PyList [PyFloat 0; PyFloat 0.5].
Definition vec_dogfood : pyval := PyList [PyFloat 3; PyFloat 0.125].

Definition clock (k : nat) : float :=
  match k with
  | O => 1.5%float
  | _ => 4%float
  end.

(** A service that knows three prompts and answers 404 to the rest. *)
Definition good_service : Env :=
  {| http := fun _ rq =>
       match req_json rq with
       | PyDict [(_, _); (_, PyStr "cat")] =>
           answer 200 (Ok (PyDict [("embedding", vec_cat)])) ""
       | PyDict [(_, _); (_, PyStr " ")] =>
           answer 200 (Ok (PyDict [("embedding", vec_space)])) ""
       | PyDict [(_, _); (_, PyStr "dog food")] =>
           answer 200 (Ok (PyDict [("embedding", vec_dogfood)])) ""
       | _ =>
           answer 404 (Raise (Exn ClientError "unexpected mimetype"))
             "not found"
       end;
     monotonic := clock |}.

(** A service whose second answer (request number 1) is a 500. *)
Definition flaky_service : Env :=
  {| http := fun k _ =>
       match k with
       | 1%nat =>
           answer 500 (Raise (Exn ClientError "unexpected mimetype"))
             "model not loaded"
       | _ => answer 200 (Ok (PyDict [("embedding", vec_cat)])) ""
       end;
     monotonic := clock |}.

(** A service that is down: every request fails with a 500. *)
Definition broken_service : Env :=
  {| http := fun _ _ =>
       answer 500 (Raise (Exn ClientError "unexpected mimetype"))
         "model not loaded";
     monotonic := clock |}.

Definition cat_space_dogfood : list pyval :=
  [PyStr "cat"; PyStr ""; PyStr ("dog" +:+ String LF "food")].

End Sample.

(** ** The outcomes of construction *)

(** The client [__init__] builds from a configuration, up to its metrics
    attributes. *)
Definition client_of (config : Config) (collect : bool)
    (labels : option pyval) (counter summary : option Metric)
    : OllamaEmbedder :=
  {| _model := default (PyStr "nomic-embed-text") (cfg_model config);
     _base_url := default "http://ollama:11434" (cfg_base_url config);
     _endpoint := default "http://ollama:11434" (cfg_base_url config)
                  +:+ "/api/embeddings";
     _collect_metrics := collect;
     _user_metrics_labels := labels;
     _request_counter := counter;
     _latency_summary := summary |}.

(** The two metrics [__init__] registers with factory [o] under the label
    names [names]. *)
Definition usage_requests (o : pyobj) (names : list string) : Metric :=
  {| metric_factory := o;
     metric_name := "embedder_ollama_usage_requests";
     metric_help := "Number of requests to Ollama embedder";
     metric_label_names := names |}.

Definition latency_seconds (o : pyobj) (names : list string) : Metric :=
  {| metric_factory := o;
     metric_name := "embedder_ollama_latency_seconds";
     metric_help := "Latency in seconds for Ollama embedder requests";
     metric_label_names := names |}.

(** ** Further scenarios *)

Module Scenario.

(** [OllamaEmbedder({"model": "all-minilm", "base_url": "http://localhost:11434"})]. *)
Definition local_config : Config :=
  {| cfg_model := Some (PyStr "all-minilm");
     cfg_base_url := Some "http://localhost:11434";
     cfg_metrics_factory := None; cfg_user_metrics_labels := None |}.


(** A service during whose second request (number 1) the calling task is
    cancelled. *)
Definition cancelling_service : Env :=
  {| http := fun k _ =>
       match k with
       | 1%nat => PostRaises (Exn CancelledError "")
       | _ =>
           Sample.answer 200 (Ok (PyDict [("embedding", Sample.vec_cat)])) ""
       end;
     monotonic := Sample.clock |}.

(** A service that answers 200 with a JSON object that has an [error] field
    and no [embedding] field. *)
Definition keyless_service : Env :=
  {| http := fun _ _ =>
       Sample.answer 200 (Ok (PyDict [("error", PyStr "model not found")])) "";
     monotonic := Sample.clock |}.

(** A service that numbers its answers: the [k]-th request is answered with
    the embedding [[k]]. *)
Definition counting_service : Env :=
  {| http := fun k _ =>
       Sample.answer 200
         (Ok (PyDict [("embedding", PyList [PyInt (Z.of_nat k)])])) "";
     monotonic := Sample.clock |}.

(** The answer of a service that is overloaded: status 503 and a body that
    is not valid UTF-8, so that neither [response.json()] nor
    [response.text()] can read it. *)
Definition garbled_answer : Response :=
  {| status := 503;
     json := Raise (Exn ClientError "unexpected mimetype");
     text :=
       Raise (Exn ValueError
                "'utf-8' codec can't decode byte 0xff in position 0: invalid start byte") |}.

Definition garbled_service : Env :=
  {| http := fun _ _ => PostReturns garbled_answer;
     monotonic := Sample.clock |}.

End Scenario.

(** * Properties *)

(** ** Traces *)

(** Brings a trace built with [++] and [::] to its right-nested form. *)
Ltac norm_app :=
  repeat first [rewrite <- app_assoc | progress cbn [app]].

Lemma count_posts_app (tr tr' : list Event) :
  count_posts (tr ++ tr') = (count_posts tr + count_posts tr')%nat.
Proof. unfold count_posts. now rewrite List.filter_app, length_app. Qed.

Lemma count_clock_app (tr tr' : list Event) :
  count_clock (tr ++ tr') = (count_clock tr + count_clock tr')%nat.
Proof. unfold count_clock. now rewrite List.filter_app, length_app. Qed.

Lemma exchanges_posts (env : Env) (self : OllamaEmbedder) (ps : list pyval) :
  forall k, count_posts (exchanges env self k ps) = length ps.
Proof.
  induction ps as [|p ps IH]; intros k; [reflexivity|].
  unfold count_posts in *. simpl. now rewrite IH.
Qed.

Lemma exchanges_no_clock (env : Env) (self : OllamaEmbedder) (ps : list pyval) :
  forall k, List.filter is_clock (exchanges env self k ps) = [].
Proof. induction ps as [|p ps IH]; intros k; simpl; auto. Qed.

Lemma exchanges_no_metric (env : Env) (self : OllamaEmbedder) (ps : list pyval) :
  forall k, List.filter is_metric (exchanges env self k ps) = [].
Proof. induction ps as [|p ps IH]; intros k; simpl; auto. Qed.

Lemma exchanges_all_http (env : Env) (self : OllamaEmbedder) (ps : list pyval) :
  forall k,
    List.filter is_http (exchanges env self k ps) = exchanges env self k ps.
Proof.
  induction ps as [|p ps IH]; intros k; simpl; [reflexivity|].
  now rewrite IH.
Qed.

(** ** Success and failure of one request *)

Lemma getitem_Ok (x : pyval) (k : string) (v : pyval) :
  getitem x k = Ok v <-> exists d, x = PyDict d /\ dict_get k d = Some v.
Proof.
  split.
  - destruct x; simpl; try discriminate.
    destruct (dict_get k d) eqn:E; [|discriminate].
    intros [= ->]. eauto.
  - intros (d & -> & E). simpl. now rewrite E.
Qed.

Lemma body_result_Ok (o : HttpOutcome) (v : pyval) :
  body_result o = Ok v <-> request_succeeds o v.
Proof.
  split.
  - destruct o as [e|r]; simpl; [discriminate|].
    destruct (Z.eqb_spec (status r) 200) as [Hs|Hs].
    + destruct (json r) as [res|e] eqn:Ej; [|discriminate].
      intros (d & -> & Hd)%getitem_Ok. exists r, d. auto.
    + destruct (text r); discriminate.
  - intros (r & d & -> & Hs & Hj & Hd). simpl.
    rewrite Hs, Hj. simpl. now rewrite Hd.
Qed.

Lemma body_result_Raise (o : HttpOutcome) (e : exn) :
  body_result o = Raise e <-> request_fails o e.
Proof.
  split.
  - destruct o as [e'|r]; simpl.
    + intros [= ->]. constructor.
    + destruct (Z.eqb_spec (status r) 200) as [Hs|Hs].
      * destruct (json r) as [res|e'] eqn:Ej.
        -- intros Hg. eapply fails_malformed; eauto.
        -- intros [= ->]. now apply fails_body.
      * destruct (text r) as [t|e'] eqn:Et.
        -- intros [= <-]. now apply fails_status.
        -- intros [= ->]. now apply fails_status_unread.
  - intros H. destruct H as [e|r body Hs Ht|r e Hs Ht|r e Hs Hj|r res e Hs Hj Hg];
      simpl; auto.
    + destruct (Z.eqb_spec (status r) 200); [contradiction|]. now rewrite Ht.
    + destruct (Z.eqb_spec (status r) 200); [contradiction|]. now rewrite Ht.
    + rewrite Hs, Hj. reflexivity.
    + rewrite Hs, Hj. simpl. exact Hg.
Qed.

(** Every request either succeeds or fails, never both. *)
Lemma request_succeeds_or_fails (o : HttpOutcome) :
  (exists v, request_succeeds o v) \/ (exists e, request_fails o e).
Proof.
  destruct (body_result o) as [v|e] eqn:E.
  - left. exists v. now apply body_result_Ok.
  - right. exists e. now apply body_result_Raise.
Qed.

Lemma request_succeeds_not_fails (o : HttpOutcome) (v : pyval) (e : exn) :
  request_succeeds o v -> request_fails o e -> False.
Proof.
  intros Hs%body_result_Ok Hf%body_result_Raise. congruence.
Qed.

(** ** The loop *)

Section Loop.

Variable env : Env.
Variable self : OllamaEmbedder.

Lemma request_embedding_run (p : pyval) (tr : list Event) :
  request_embedding env self p tr
  = (body_result (http env (count_posts tr) (request_for self p)),
     tr ++ exchanges env self (count_posts tr) [p]).
Proof.
  unfold request_embedding, bind, session_post, lift, raise. simpl.
  fold (request_for self p).
  destruct (http env (count_posts tr) (request_for self p)) as [e|r];
    simpl; [reflexivity|].
  destruct (status r =? 200)%Z.
  - destruct (json r); reflexivity.
  - destruct (text r); reflexivity.
Qed.

Lemma embed_loop_run (prompts : list pyval) :
  forall acc tr,
    embed_loop env self prompts acc tr
    = (loop_result env self (count_posts tr) prompts acc,
       tr ++ exchanges env self (count_posts tr)
               (take (loop_posts env self (count_posts tr) prompts) prompts)).
Proof.
  induction prompts as [|p rest IH]; intros acc tr.
  - simpl. unfold ret. now rewrite app_nil_r.
  - cbn [embed_loop loop_result loop_posts].
    unfold bind at 1. unfold try_except.
    rewrite request_embedding_run.
    destruct (body_result (http env (count_posts tr) (request_for self p)))
      as [v|e]; cbn [guarded].
    + rewrite IH, count_posts_app, exchanges_posts.
      replace (count_posts tr + length [p])%nat with (S (count_posts tr))
        by (simpl; lia).
      now rewrite <- app_assoc.
    + unfold reraised. destruct (is_Exception e); reflexivity.
Qed.

(** The loop posts at most one request per prompt. *)
Lemma loop_posts_le (prompts : list pyval) :
  forall k, (loop_posts env self k prompts <= length prompts)%nat.
Proof.
  induction prompts as [|p rest IH]; intros k; simpl; [lia|].
  destruct (body_result _); [specialize (IH (S k))|]; lia.
Qed.

(** When every request succeeds, the loop returns one value per prompt,
    in order, after the values it started with. *)
Lemma loop_result_all_ok (prompts : list pyval) :
  forall k acc,
    (forall i p, prompts !! i = Some p ->
       exists v, request_succeeds (http env (k + i) (request_for self p)) v) ->
    exists vs,
      loop_result env self k prompts acc = Ok (acc ++ vs)
      /\ loop_posts env self k prompts = length prompts
      /\ length vs = length prompts
      /\ forall i p, prompts !! i = Some p ->
           exists v, vs !! i = Some v
             /\ request_succeeds (http env (k + i) (request_for self p)) v.
Proof.
  induction prompts as [|p rest IH]; intros k acc H.
  - exists []. simpl. rewrite app_nil_r. repeat split; auto.
    intros i p Hi. discriminate.
  - destruct (H O p eq_refl) as [v Hv].
    rewrite Nat.add_0_r in Hv.
    destruct (IH (S k) (acc ++ [v])) as (vs & Hr & Hp & Hl & Hvs).
    { intros i q Hi. destruct (H (S i) q Hi) as [w Hw].
      exists w. now replace (S k + i)%nat with (k + S i)%nat by lia. }
    exists (v :: vs). simpl.
    apply body_result_Ok in Hv as Hb. rewrite Hb. simpl.
    rewrite Hr, Hp, Hl, <- app_assoc. repeat split; auto.
    intros [|i] q Hi; simpl in Hi.
    + injection Hi as <-. exists v. rewrite Nat.add_0_r. auto.
    + destruct (Hvs i q Hi) as (w & Hw1 & Hw2). exists w. split; [exact Hw1|].
      now replace (k + S i)%nat with (S k + i)%nat by lia.
Qed.

(** The converse: a loop that returns has had every request succeed. *)
Lemma loop_result_Ok_inv (prompts : list pyval) :
  forall k acc vs,
    loop_result env self k prompts acc = Ok vs ->
    loop_posts env self k prompts = length prompts
    /\ forall i p, prompts !! i = Some p ->
         exists v, request_succeeds (http env (k + i) (request_for self p)) v.
Proof.
  induction prompts as [|p rest IH]; intros k acc vs H.
  - split; [reflexivity|]. intros i p Hi. discriminate.
  - simpl in H. simpl.
    destruct (body_result (http env k (request_for self p))) as [v|e] eqn:Hb;
      simpl in H.
    + destruct (IH _ _ _ H) as [Hp Hall]. split; [now rewrite Hp|].
      intros [|i] q Hi; simpl in Hi.
      * injection Hi as <-. exists v. rewrite Nat.add_0_r.
        now apply body_result_Ok.
      * destruct (Hall i q Hi) as [w Hw]. exists w.
        now replace (k + S i)%nat with (S k + i)%nat by lia.
    + discriminate.
Qed.

(** Up to the first failure: if the requests before the [i]-th succeed and
    the [i]-th fails with cause [e], the loop stops there, with the cause
    wrapped when [except Exception] catches it. *)
Lemma loop_result_first_failure (prompts : list pyval) :
  forall k acc i p e,
    prompts !! i = Some p ->
    (forall j q, (j < i)%nat -> prompts !! j = Some q ->
       exists v, request_succeeds (http env (k + j) (request_for self q)) v) ->
    request_fails (http env (k + i) (request_for self p)) e ->
    loop_result env self k prompts acc = Raise (reraised e)
    /\ loop_posts env self k prompts = S i.
Proof.
  induction prompts as [|p0 rest IH]; intros k acc i p e Hi Hbefore Hfail.
  - discriminate.
  - destruct i as [|i]; simpl in Hi.
    + injection Hi as ->. rewrite Nat.add_0_r in Hfail.
      apply body_result_Raise in Hfail. simpl. rewrite Hfail. auto.
    + destruct (Hbefore O p0) as [v Hv]; [lia|reflexivity|].
      rewrite Nat.add_0_r in Hv. apply body_result_Ok in Hv.
      simpl. rewrite Hv. simpl.
      destruct (IH (S k) (acc ++ [v]) i p e Hi) as [Hr Hp].
      * intros j q Hj Hq. destruct (Hbefore (S j) q) as [w Hw]; [lia|exact Hq|].
        exists w. now replace (S k + j)%nat with (k + S j)%nat by lia.
      * now replace (S k + i)%nat with (k + S i)%nat by lia.
      * now rewrite Hr, Hp.
Qed.

(** Any failure at all, first or not, makes the loop raise. *)
Lemma loop_result_some_failure (prompts : list pyval) :
  forall k acc i p e,
    prompts !! i = Some p ->
    request_fails (http env (k + i) (request_for self p)) e ->
    exists e', loop_result env self k prompts acc = Raise e'.
Proof.
  induction prompts as [|p0 rest IH]; intros k acc i p e Hi Hfail.
  - discriminate.
  - simpl.
    destruct (body_result (http env k (request_for self p0))) as [v|e0] eqn:Hb;
      simpl.
    + destruct i as [|i]; simpl in Hi.
      * injection Hi as ->. rewrite Nat.add_0_r in Hfail.
        apply body_result_Raise in Hfail. congruence.
      * apply (IH (S k) (acc ++ [v]) i p e Hi).
        now replace (S k + i)%nat with (k + S i)%nat by lia.
    + eauto.
Qed.

(** The requests before the last one posted have all succeeded. *)
Lemma loop_posts_before (prompts : list pyval) :
  forall k i p,
    prompts !! i = Some p ->
    (S i < loop_posts env self k prompts)%nat ->
    exists v, request_succeeds (http env (k + i) (request_for self p)) v.
Proof.
  induction prompts as [|p0 rest IH]; intros k i p Hi Hlt.
  - discriminate.
  - simpl in Hlt.
    destruct (body_result (http env k (request_for self p0))) as [v|e] eqn:Hb;
      [|lia].
    destruct i as [|i]; simpl in Hi.
    + injection Hi as <-. exists v. rewrite Nat.add_0_r.
      now apply body_result_Ok.
    + destruct (IH (S k) i p Hi) as [w Hw]; [lia|]. exists w.
      now replace (k + S i)%nat with (S k + i)%nat by lia.
Qed.

End Loop.

(** ** Cleaning the inputs *)

Lemma replace_newline_spec (s : string) :
  str_replace s (String LF "") " " = newlines_to_spaces s.
Proof.
  unfold str_replace.
  induction s as [|c s IH]; [reflexivity|].
  cbn [replace_from newlines_to_spaces is_prefix String.length Nat.pred].
  rewrite andb_true_r, (Ascii.eqb_sym LF c), IH.
  now destruct (Ascii.eqb c LF).
Qed.

Lemma newlines_to_spaces_length (s : string) :
  String.length (newlines_to_spaces s) = String.length s.
Proof. induction s as [|c s IH]; simpl; congruence. Qed.

Lemma newlines_to_spaces_clean (s : string) :
  has_newline (newlines_to_spaces s) = false.
Proof.
  induction s as [|c s IH]; [reflexivity|]. simpl. rewrite IH.
  destruct (Ascii.eqb c LF) eqn:E; [reflexivity|]. now rewrite E.
Qed.

Lemma newlines_to_spaces_get (s : string) (i : nat) :
  String.get i (newlines_to_spaces s)
  = match String.get i s with
    | Some c => Some (if Ascii.eqb c LF then " "%char else c)
    | None => None
    end.
Proof.
  revert i. induction s as [|c s IH]; intros i; [reflexivity|].
  destruct i; simpl; auto.
Qed.

Lemma truthy_str (s : string) : truthy (PyStr s) = true <-> s <> "".
Proof.
  simpl. destruct (String.eqb_spec s ""); simpl; split; congruence.
Qed.

(** What a cleaned input looks like. *)
Lemma clean_input_Ok (x p : pyval) :
  clean_input x = Ok p ->
  (truthy x = false /\ p = PyStr " ")
  \/ (exists s, x = PyStr s /\ s <> "" /\ p = PyStr (newlines_to_spaces s)).
Proof.
  unfold clean_input. destruct (truthy x) eqn:T.
  - destruct x; simpl; try discriminate.
    rewrite replace_newline_spec. intros [= <-]. right.
    exists s. split; [reflexivity|]. split; [now apply truthy_str|reflexivity].
  - intros [= <-]. now left.
Qed.


Lemma clean_inputs_lookup (inputs : list pyval) :
  forall prompts,
    clean_inputs inputs = Ok prompts ->
    length prompts = length inputs
    /\ forall i, match inputs !! i, prompts !! i with
                 | Some x, Some p => clean_input x = Ok p
                 | None, None => True
                 | _, _ => False
                 end.
Proof.
  induction inputs as [|x xs IH]; intros prompts H; simpl in H.
  - injection H as <-. split; [reflexivity|]. intros i. now destruct i.
  - destruct (clean_input x) as [p|e] eqn:Ex; [|discriminate].
    destruct (clean_inputs xs) as [ps|e] eqn:Exs; [|discriminate].
    injection H as <-. destruct (IH ps eq_refl) as [Hl Hi].
    split; [simpl; congruence|]. intros [|i]; simpl; [exact Ex|apply Hi].
Qed.

Lemma clean_inputs_total (inputs : list pyval) :
  (forall i x, inputs !! i = Some x -> exists p, clean_input x = Ok p) ->
  exists prompts, clean_inputs inputs = Ok prompts.
Proof.
  induction inputs as [|x xs IH]; intros H; simpl.
  - eauto.
  - destruct (H O x eq_refl) as [p ->].
    destruct IH as [ps ->]; [|eauto].
    intros i y Hi. apply (H (S i) y Hi).
Qed.

(** The comprehension raises as soon as one item cannot be cleaned; the error
    is that of the first such item. *)
Lemma clean_inputs_Raise (inputs : list pyval) :
  forall i x e,
    inputs !! i = Some x -> clean_input x = Raise e ->
    exists j y e',
      (j <= i)%nat /\ inputs !! j = Some y /\ clean_input y = Raise e'
      /\ clean_inputs inputs = Raise e'.
Proof.
  induction inputs as [|x0 xs IH]; intros i x e Hi Hx; [discriminate|].
  destruct (clean_input x0) as [p|e0] eqn:E0.
  - destruct i as [|i]; simpl in Hi; [congruence|].
    destruct (IH i x e Hi Hx) as (j & y & e' & Hj & Hy & Hc & Hr).
    exists (S j), y, e'. simpl. rewrite E0, Hr. repeat split; auto. lia.
  - exists O, x0, e0. simpl. rewrite E0. repeat split; auto. lia.
Qed.

Lemma clean_inputs_prompt (inputs prompts : list pyval) (i : nat) (p : pyval) :
  clean_inputs inputs = Ok prompts ->
  prompts !! i = Some p ->
  exists x, inputs !! i = Some x /\ clean_input x = Ok p.
Proof.
  intros [_ H]%clean_inputs_lookup Hp. specialize (H i). rewrite Hp in H.
  destruct (inputs !! i) as [x|]; [eauto|contradiction].
Qed.

Lemma clean_inputs_item (inputs prompts : list pyval) (i : nat) (x : pyval) :
  clean_inputs inputs = Ok prompts ->
  inputs !! i = Some x ->
  exists p, prompts !! i = Some p /\ clean_input x = Ok p.
Proof.
  intros [_ H]%clean_inputs_lookup Hx. specialize (H i). rewrite Hx in H.
  destruct (prompts !! i) as [p|]; [eauto|contradiction].
Qed.

(** ** Construction *)

Lemma init_TypeError (config : Config) (v : pyval) (tr : list Event) :
  cfg_metrics_factory config = Some v ->
  is_None v = false ->
  isinstance_MetricsFactory v = false ->
  __init__ config tr
  = (Raise (Exn TypeError
              "Metrics factory must be an instance of MetricsFactory"), tr).
Proof.
  intros Hc Hn Hi. unfold __init__. rewrite Hc. simpl. now rewrite Hn, Hi.
Qed.

Lemma init_disabled (config : Config) (tr : list Event) :
  default PyNone (cfg_metrics_factory config) = PyNone ->
  __init__ config tr
  = (Ok {| _model := default (PyStr "nomic-embed-text") (cfg_model config);
           _base_url := default "http://ollama:11434" (cfg_base_url config);
           _endpoint := default "http://ollama:11434" (cfg_base_url config)
                        +:+ "/api/embeddings";
           _collect_metrics := false;
           _user_metrics_labels := None;
           _request_counter := None;
           _latency_summary := None |}, tr).
Proof. intros H. unfold __init__. now rewrite H. Qed.

(** A client with metrics enabled was given a metrics factory, and holds the
    labels of its configuration and the two metrics registered with them. *)
Lemma init_enabled (config : Config) (tr0 tr1 : list Event)
    (self : OllamaEmbedder) :
  __init__ config tr0 = (Ok self, tr1) ->
  _collect_metrics self = true ->
  exists o names,
    cfg_metrics_factory config = Some (PyObj o)
    /\ obj_is_metrics_factory o = true
    /\ call_keys (default (PyDict []) (cfg_user_metrics_labels config))
       = Ok names
    /\ _user_metrics_labels self
       = Some (default (PyDict []) (cfg_user_metrics_labels config))
    /\ _request_counter self
       = Some {| metric_factory := o;
                 metric_name := "embedder_ollama_usage_requests";
                 metric_help := "Number of requests to Ollama embedder";
                 metric_label_names := names |}
    /\ _latency_summary self
       = Some {| metric_factory := o;
                 metric_name := "embedder_ollama_latency_seconds";
                 metric_help :=
                   "Latency in seconds for Ollama embedder requests";
                 metric_label_names := names |}.
Proof.
  unfold __init__.
  destruct (cfg_metrics_factory config) as [v|]; cbn [from_option id].
  2:{ cbn. unfold ret. intros [= <- _]. discriminate. }
  destruct v; cbn [is_None isinstance_MetricsFactory negb andb];
    try (unfold raise; discriminate).
  { unfold ret. intros [= <- _]. discriminate. }
  destruct (obj_is_metrics_factory o) eqn:Ho; cbn [negb];
    [|unfold raise; discriminate].
  unfold bind, lift.
  destruct (call_keys _) as [names|e] eqn:Hk; [|discriminate].
  cbn. intros [= <- _] _. exists o, names. auto 10.
Qed.

(** What the metrics block of a constructed client emits. *)
Lemma constructed_metrics (self : OllamaEmbedder) (n : nat) (t0 t1 : float) :
  constructed self ->
  exists evs, metrics_events self n t0 t1 = Some evs.
Proof.
  intros (config & tr0 & tr1 & H). unfold metrics_events.
  destruct (_collect_metrics self) eqn:Hc; [|eauto].
  destruct (init_enabled _ _ _ _ H Hc) as (o & names & _ & _ & _ & -> & -> & ->).
  eauto.
Qed.

(** ** One call of [_embed] *)

Section Call.

Variable env : Env.
Variable self : OllamaEmbedder.

(** Cleaning fails: the error leaves [_embed] as it is, and nothing has
    happened. *)
Lemma embed_unclean (inputs : list pyval) (e : exn) (tr : list Event) :
  clean_inputs inputs = Raise e ->
  _embed env self inputs tr = (Raise e, tr).
Proof.
  intros H. destruct inputs as [|x xs]; [discriminate|].
  unfold _embed, bind, lift. now rewrite H.
Qed.

Lemma session_events_counts (tr : list Event) (prompts : list pyval) :
  count_clock (tr ++ session_events env self tr prompts)
  = S (count_clock tr).
Proof.
  rewrite count_clock_app. unfold session_events, count_clock at 2.
  cbn [List.filter is_clock length].
  rewrite List.filter_app, exchanges_no_clock. simpl. lia.
Qed.

(** A request fails: the error of the loop leaves [_embed] after the
    session is closed; no second clock reading, no metrics. *)
Lemma embed_loop_raises (inputs prompts : list pyval) (e : exn)
    (tr : list Event) :
  inputs <> [] ->
  clean_inputs inputs = Ok prompts ->
  loop_result env self (count_posts tr) prompts [] = Raise e ->
  _embed env self inputs tr
  = (Raise e, tr ++ session_events env self tr prompts).
Proof.
  intros Hne Hc Hl. destruct inputs as [|x xs]; [contradiction|].
  unfold _embed, bind at 1, lift. rewrite Hc.
  unfold bind at 1, time_monotonic.
  unfold bind at 1, with_session.
  rewrite embed_loop_run.
  rewrite !count_posts_app. cbn [count_posts List.filter is_post length].
  rewrite !Nat.add_0_r, Hl.
  unfold session_events. now rewrite <- !app_assoc.
Qed.

(** Every request succeeds: the second clock reading and the metrics block
    follow. *)
Lemma embed_loop_returns (inputs prompts vs : list pyval)
    (evs : list Event) (tr : list Event) :
  inputs <> [] ->
  clean_inputs inputs = Ok prompts ->
  loop_result env self (count_posts tr) prompts [] = Ok vs ->
  metrics_events self (length inputs)
    (monotonic env (count_clock tr)) (monotonic env (S (count_clock tr)))
  = Some evs ->
  _embed env self inputs tr
  = (Ok vs,
     tr ++ session_events env self tr prompts
        ++ EMonotonic (monotonic env (S (count_clock tr))) :: evs).
Proof.
  intros Hne Hc Hl Hm. destruct inputs as [|x xs]; [contradiction|].
  unfold _embed, bind at 1, lift. rewrite Hc.
  unfold bind at 1, time_monotonic.
  unfold bind at 1, with_session.
  rewrite embed_loop_run.
  rewrite !count_posts_app. cbn [count_posts List.filter is_post length].
  rewrite !Nat.add_0_r, Hl.
  unfold bind at 1.
  pose proof (session_events_counts tr prompts) as Hk.
  unfold session_events in *.
  rewrite <- ?app_assoc. cbn [app].
  rewrite <- ?app_assoc in Hk. cbn [app] in Hk.
  rewrite Hk. clear Hk.
  unfold metrics_events in Hm.
  destruct (_collect_metrics self).
  - destruct (_request_counter self) as [c|]; [|discriminate].
    destruct (_user_metrics_labels self) as [labels|]; [|discriminate].
    destruct (_latency_summary self) as [m|]; [|discriminate].
    injection Hm as <-.
    unfold bind, getattr, ret, increment, observe, emit. cbn.
    now norm_app.
  - injection Hm as <-. unfold bind, ret. cbn.
    now norm_app.
Qed.

End Call.

(** ** The shape of a call *)

Lemma metrics_events_kinds (self : OllamaEmbedder) (n : nat) (t0 t1 : float)
    (evs : list Event) :
  metrics_events self n t0 t1 = Some evs ->
  List.filter is_http evs = []
  /\ List.filter is_clock evs = []
  /\ List.filter is_metric evs = evs.
Proof.
  unfold metrics_events. destruct (_collect_metrics self).
  - destruct (_request_counter self), (_user_metrics_labels self),
      (_latency_summary self); try discriminate.
    intros [= <-]. repeat split.
  - intros [= <-]. repeat split.
Qed.

Lemma session_events_http (env : Env) (self : OllamaEmbedder)
    (tr : list Event) (prompts : list pyval) :
  List.filter is_http (session_events env self tr prompts)
  = exchanges env self (count_posts tr)
      (take (loop_posts env self (count_posts tr) prompts) prompts).
Proof.
  unfold session_events. cbn [List.filter is_http].
  rewrite List.filter_app, exchanges_all_http. simpl. apply app_nil_r.
Qed.

Lemma session_events_clock (env : Env) (self : OllamaEmbedder)
    (tr : list Event) (prompts : list pyval) :
  List.filter is_clock (session_events env self tr prompts)
  = [EMonotonic (monotonic env (count_clock tr))].
Proof.
  unfold session_events. cbn [List.filter is_clock].
  now rewrite List.filter_app, exchanges_no_clock.
Qed.

Lemma session_events_metric (env : Env) (self : OllamaEmbedder)
    (tr : list Event) (prompts : list pyval) :
  List.filter is_metric (session_events env self tr prompts) = [].
Proof.
  unfold session_events. cbn [List.filter is_metric].
  now rewrite List.filter_app, exchanges_no_metric.
Qed.

Lemma embed_shape (env : Env) (self : OllamaEmbedder) (inputs : list pyval)
    (tr : list Event) :
  constructed self ->
  inputs <> [] ->
  exists r delta,
    _embed env self inputs tr = (r, tr ++ delta)
    /\ call_shape env self inputs tr r delta.
Proof.
  intros Hself Hne.
  destruct (clean_inputs inputs) as [prompts|e] eqn:Hc.
  - destruct (loop_result env self (count_posts tr) prompts []) as [vs|e]
      eqn:Hl.
    + destruct (constructed_metrics self (length inputs)
                  (monotonic env (count_clock tr))
                  (monotonic env (S (count_clock tr))) Hself) as [evs Hm].
      do 2 eexists. split.
      * apply (embed_loop_returns env self inputs prompts vs evs tr);
          eassumption.
      * now apply shape_returned.
    + do 2 eexists. split.
      * apply (embed_loop_raises env self inputs prompts e tr); eassumption.
      * now apply shape_failed.
  - exists (Raise e), []. split.
    + rewrite app_nil_r. now apply embed_unclean.
    + now apply shape_unclean.
Qed.

Lemma exchanges_In_post (env : Env) (self : OllamaEmbedder) (rq : Request)
    (ps : list pyval) :
  forall k,
    In (EPost rq) (exchanges env self k ps) ->
    exists p, In p ps /\ rq = request_for self p.
Proof.
  induction ps as [|p ps IH]; intros k H; simpl in H; [contradiction|].
  destruct H as [[= <-]|[H|H]]; [|discriminate|].
  - exists p. split; [now left|reflexivity].
  - destruct (IH _ H) as (q & Hq & ->). exists q. split; [now right|reflexivity].
Qed.

(** When every per-item request succeeds, the inputs can all be cleaned and
    the loop returns one vector per input, in input order. *)
Lemma all_succeed_loop (env : Env) (self : OllamaEmbedder)
    (inputs : list pyval) (tr : list Event) :
  (forall i x, inputs !! i = Some x ->
     exists v, item_succeeds env self (count_posts tr + i) x v) ->
  exists prompts vs,
    clean_inputs inputs = Ok prompts
    /\ loop_result env self (count_posts tr) prompts [] = Ok vs
    /\ length vs = length inputs
    /\ forall i x, inputs !! i = Some x ->
         exists v, vs !! i = Some v
           /\ item_succeeds env self (count_posts tr + i) x v.
Proof.
  intros Hall.
  destruct (clean_inputs_total inputs) as [prompts Hc].
  { intros i x Hi. destruct (Hall i x Hi) as (v & p & Hp & _). eauto. }
  destruct (loop_result_all_ok env self prompts (count_posts tr) [])
    as (vs & Hr & _ & Hlen & Hvs).
  { intros i p Hp.
    destruct (clean_inputs_prompt _ _ _ _ Hc Hp) as (x & Hx & Hxp).
    destruct (Hall i x Hx) as (v & p' & Hp' & Hv).
    exists v. congruence. }
  exists prompts, vs. repeat split; auto.
  - rewrite Hlen. now apply clean_inputs_lookup.
  - intros i x Hx.
    destruct (clean_inputs_item _ _ _ _ Hc Hx) as (p & Hp & Hxp).
    destruct (Hvs i p Hp) as (v & Hv & Hs).
    exists v. split; [exact Hv|]. exists p. auto.
Qed.

(** ** The requests of a call *)

Lemma exchanges_filter_post (env : Env) (self : OllamaEmbedder)
    (ps : list pyval) :
  forall k,
    List.filter is_post (exchanges env self k ps)
    = map (fun p => EPost (request_for self p)) ps.
Proof.
  induction ps as [|p ps IH]; intros k; simpl; [reflexivity|].
  now rewrite IH.
Qed.

Lemma no_http_no_post (l : list Event) :
  List.filter is_http l = [] -> List.filter is_post l = [].
Proof.
  induction l as [|ev l IH]; [reflexivity|]. simpl.
  destruct ev; simpl; try discriminate; auto.
Qed.

(** The loop gets as far as the request after the ones that succeeded. *)
Lemma loop_posts_reaches (env : Env) (self : OllamaEmbedder)
    (prompts : list pyval) :
  forall k i p,
    prompts !! i = Some p ->
    (forall j q, (j < i)%nat -> prompts !! j = Some q ->
       exists v, request_succeeds (http env (k + j) (request_for self q)) v) ->
    (S i <= loop_posts env self k prompts)%nat.
Proof.
  induction prompts as [|p0 rest IH]; intros k i p Hi Hbefore;
    [discriminate|].
  simpl. destruct i as [|i]; simpl in Hi.
  - destruct (body_result _); lia.
  - destruct (Hbefore O p0) as [v Hv]; [lia|reflexivity|].
    rewrite Nat.add_0_r in Hv. apply body_result_Ok in Hv. rewrite Hv.
    assert (S i <= loop_posts env self (S k) rest)%nat; [|lia].
    apply (IH (S k) i p Hi). intros j q Hj Hq.
    destruct (Hbefore (S j) q) as [w Hw]; [lia|exact Hq|].
    exists w. now replace (S k + j)%nat with (k + S j)%nat by lia.
Qed.

(** The requests a call posts, when its inputs can be cleaned: those for the
    prompts the loop gets to, in order. *)
Lemma posts_of_call (env : Env) (self : OllamaEmbedder)
    (inputs prompts : list pyval) (tr : list Event) :
  constructed self ->
  inputs <> [] ->
  clean_inputs inputs = Ok prompts ->
  exists r delta,
    _embed env self inputs tr = (r, tr ++ delta)
    /\ List.filter is_post delta
       = map (fun p => EPost (request_for self p))
           (take (loop_posts env self (count_posts tr) prompts) prompts).
Proof.
  intros Hself Hne Hc.
  destruct (embed_shape env self inputs tr Hself Hne)
    as (r & delta & Hrun & Hsh).
  exists r, delta. split; [exact Hrun|].
  assert (Hsess : forall ps,
    List.filter is_post (session_events env self tr ps)
    = map (fun p => EPost (request_for self p))
        (take (loop_posts env self (count_posts tr) ps) ps)).
  { intros ps. unfold session_events. cbn [List.filter is_post].
    rewrite List.filter_app, exchanges_filter_post. simpl. apply app_nil_r. }
  destruct Hsh as [e He|prompts' e Hc' Hl|prompts' vs evs Hc' Hl Hm].
  - congruence.
  - assert (prompts' = prompts) as -> by congruence. apply Hsess.
  - assert (prompts' = prompts) as -> by congruence.
    rewrite List.filter_app, Hsess. cbn [List.filter is_post].
    apply metrics_events_kinds in Hm as (Hh & _ & _).
    rewrite (no_http_no_post _ Hh). apply app_nil_r.
Qed.

(** An item that is a text or is falsy is cleaned to its sanitized form. *)
Lemma clean_input_sanitized (x : pyval) :
  truthy x = false \/ (exists s, x = PyStr s) ->
  clean_input x = Ok (PyStr (sanitized x)).
Proof.
  intros [Hf|[s ->]].
  - unfold clean_input. rewrite Hf. destruct x; try reflexivity.
    simpl in Hf. apply negb_false_iff in Hf. simpl. now rewrite Hf.
  - unfold clean_input, sanitized. simpl.
    destruct (String.eqb s ""); simpl; [reflexivity|].
    now rewrite replace_newline_spec.
Qed.

(** * The claims *)

(** C5. For the empty input list both entry points return the empty list at
    once and leave the trace as it was: no HTTP request, no clock reading, no
    counter increment and no latency observation, whatever the client
    (metrics enabled or not) and whatever the environment. *)
Theorem embed_empty_is_silent (env : Env) (self : OllamaEmbedder)
    (tr : list Event) :
  ingest_embed env self [] tr = (Ok [], tr)
  /\ search_embed env self [] tr = (Ok [], tr).
Proof. split; reflexivity. Qed.

(** C8. [ingest_embed] and [search_embed] agree: for every environment,
    client, input list and trace so far they give the same result (the same
    list or the same error) and the same events. *)
Theorem ingest_search_agree (env : Env) (self : OllamaEmbedder)
    (inputs : list pyval) (tr : list Event) :
  ingest_embed env self inputs tr = search_embed env self inputs tr.
Proof. reflexivity. Qed.

(** C7, as stated, fails: a [metrics_factory] key that is present with the
    value [None] is not an instance of [MetricsFactory], and yet construction
    succeeds, with metrics disabled, because the check is guarded by
    [metrics_factory is not None]. *)
Lemma init_accepts_None_factory :
  cfg_metrics_factory Sample.none_factory_config = Some PyNone
  /\ isinstance_MetricsFactory PyNone = false
  /\ __init__ Sample.none_factory_config [] = (Ok Sample.plain_client, []).
Proof. repeat split. Qed.

(** C7, amended. Constructing the client with a [metrics_factory] value that
    is present, is not [None] and is not an instance of [MetricsFactory]
    raises the [TypeError], with no event before it (no counter or summary
    registered, no request made); if [metrics_factory] is absent, or present
    with the value [None], construction succeeds with metrics collection
    disabled, again without any event. *)
Theorem init_checks_metrics_factory (config : Config) (tr : list Event) :
  (forall v,
     cfg_metrics_factory config = Some v ->
     v <> PyNone ->
     isinstance_MetricsFactory v = false ->
     __init__ config tr
     = (Raise (Exn TypeError
                 "Metrics factory must be an instance of MetricsFactory"), tr))
  /\ (cfg_metrics_factory config = None
      \/ cfg_metrics_factory config = Some PyNone ->
      exists self,
        __init__ config tr = (Ok self, tr) /\ _collect_metrics self = false).
Proof.
  split.
  - intros v Hc Hn Hi. apply (init_TypeError config v tr Hc); [|exact Hi].
    destruct v; try reflexivity. congruence.
  - intros H. eexists. split.
    + apply init_disabled. destruct H as [-> | ->]; reflexivity.
    + reflexivity.
Qed.

(** The amended C7 at [{"metrics_factory": "prometheus"}] and at [{}]. *)
Lemma init_checks_metrics_factory_witness :
  __init__ Sample.bad_factory_config []
  = (Raise (Exn TypeError
              "Metrics factory must be an instance of MetricsFactory"), [])
  /\ exists self,
       __init__ Sample.default_config [] = (Ok self, [])
       /\ _collect_metrics self = false.
Proof.
  split.
  - apply (proj1 (init_checks_metrics_factory Sample.bad_factory_config [])
             (PyStr "prometheus")); [reflexivity|discriminate|reflexivity].
  - apply (proj2 (init_checks_metrics_factory Sample.default_config [])).
    left. reflexivity.
Defined.




(** C1. For a constructed client and a non-empty input list on which every
    per-item request succeeds (item [i] can be cleaned, and the service
    answers its request with status 200 and a JSON object that has an
    [embedding] field), both entry points return a list with one vector per
    input, and the vector at position [i] is the [embedding] field of the
    answer to the request for input [i]. *)
Theorem embed_returns_embeddings_in_order (env : Env) (self : OllamaEmbedder)
    (inputs : list pyval) (tr : list Event) :
  constructed self ->
  inputs <> [] ->
  (forall i x, inputs !! i = Some x ->
     exists v, item_succeeds env self (count_posts tr + i) x v) ->
  exists vecs,
    fst (ingest_embed env self inputs tr) = Ok vecs
    /\ fst (search_embed env self inputs tr) = Ok vecs
    /\ length vecs = length inputs
    /\ forall i x, inputs !! i = Some x ->
         exists v, vecs !! i = Some v
           /\ item_succeeds env self (count_posts tr + i) x v.
Proof.
  intros Hself Hne Hall.
  destruct (all_succeed_loop env self inputs tr Hall)
    as (prompts & vs & Hc & Hr & Hlen & Hvs).
  destruct (constructed_metrics self (length inputs)
              (monotonic env (count_clock tr))
              (monotonic env (S (count_clock tr))) Hself) as [evs Hm].
  pose proof (embed_loop_returns env self inputs prompts vs evs tr
                Hne Hc Hr Hm) as Hrun.
  exists vs. unfold ingest_embed, search_embed. rewrite Hrun.
  repeat split; auto.
Qed.

(** C1 at the scenario [["cat", "", "dog\nfood"]] with a service that
    knows the three prompts. *)
Lemma embed_returns_embeddings_in_order_witness :
  exists vecs,
    fst (ingest_embed Sample.good_service Sample.metered_client
           Sample.cat_space_dogfood []) = Ok vecs
    /\ fst (search_embed Sample.good_service Sample.metered_client
              Sample.cat_space_dogfood []) = Ok vecs
    /\ length vecs = length Sample.cat_space_dogfood
    /\ forall i x, Sample.cat_space_dogfood !! i = Some x ->
         exists v, vecs !! i = Some v
           /\ item_succeeds Sample.good_service Sample.metered_client
                (count_posts [] + i) x v.
Proof.
  apply (embed_returns_embeddings_in_order Sample.good_service
           Sample.metered_client Sample.cat_space_dogfood []).
  - exists Sample.metrics_config, [],
      [EGetCounter Sample.usage_counter; EGetSummary Sample.latency_summary].
    reflexivity.
  - discriminate.
  - intros [|[|[|i]]] x Hx; simpl in Hx; try discriminate;
      injection Hx as <-.
    + exists Sample.vec_cat, (PyStr "cat"). split; [reflexivity|].
      do 2 eexists. repeat split; reflexivity.
    + exists Sample.vec_space, (PyStr " "). split; [reflexivity|].
      do 2 eexists. repeat split; reflexivity.
    + exists Sample.vec_dogfood, (PyStr "dog food"). split; [reflexivity|].
      do 2 eexists. repeat split; reflexivity.
Defined.

(** C2. For every input list: if the request for any one item fails (it is
    answered with a status other than 200, or the connection fails or times
    out, or the body is unreadable or has no [embedding] field), then both
    entry points raise; the result is an exception and carries no list, so
    the vectors appended for earlier items are lost. *)
Theorem embed_fails_as_a_whole (env : Env) (self : OllamaEmbedder)
    (inputs : list pyval) (tr : list Event) (i : nat) (x : pyval) (e : exn) :
  inputs !! i = Some x ->
  item_fails env self (count_posts tr + i) x e ->
  exists e',
    fst (ingest_embed env self inputs tr) = Raise e'
    /\ fst (search_embed env self inputs tr) = Raise e'
    /\ forall partial,
         fst (ingest_embed env self inputs tr) <> Ok partial.
Proof.
  intros Hi (p & Hp & Hfail).
  assert (Hne : inputs <> []) by (intros ->; discriminate).
  unfold ingest_embed, search_embed.
  destruct (clean_inputs inputs) as [prompts|e0] eqn:Hc.
  - destruct (clean_inputs_item _ _ _ _ Hc Hi) as (p' & Hp' & Hxp).
    assert (p' = p) as -> by congruence.
    destruct (loop_result_some_failure env self prompts (count_posts tr) []
                i p e Hp' Hfail) as [e' He'].
    exists e'. rewrite (embed_loop_raises env self inputs prompts e' tr Hne Hc He').
    repeat split; auto; discriminate.
  - exists e0. rewrite (embed_unclean env self inputs e0 tr Hc).
    repeat split; auto; discriminate.
Qed.

(** C2 at three inputs of which the second is answered with a 500. *)
Lemma embed_fails_as_a_whole_witness :
  exists e',
    fst (ingest_embed Sample.flaky_service Sample.plain_client
           Sample.cat_space_dogfood []) = Raise e'
    /\ fst (search_embed Sample.flaky_service Sample.plain_client
              Sample.cat_space_dogfood []) = Raise e'
    /\ forall partial,
         fst (ingest_embed Sample.flaky_service Sample.plain_client
                Sample.cat_space_dogfood []) <> Ok partial.
Proof.
  apply (embed_fails_as_a_whole Sample.flaky_service Sample.plain_client
           Sample.cat_space_dogfood [] 1 (PyStr "")
           (Exn ClientError "Ollama API error 500: model not loaded")).
  - reflexivity.
  - exists (PyStr " "). split; [reflexivity|].
    apply (fails_status
             {| status := 500;
                json := Raise (Exn ClientError "unexpected mimetype");
                text := Ok "model not loaded" |} "model not loaded");
      [discriminate|reflexivity].
Defined.

(** C3, as stated, fails in its last clause: a status other than 200 whose
    body text cannot be read.  The service answers 503 with a body that is
    not valid UTF-8; [response.text()] raises inside the [try], and the
    uniform error wraps that decoding error.  The message carries neither
    the status code nor any body text. *)
Lemma unreadable_error_body_loses_status :
  http Scenario.garbled_service 0
    (request_for Sample.plain_client (PyStr "cat"))
  = PostReturns Scenario.garbled_answer
  /\ status Scenario.garbled_answer = 503
  /\ fst (ingest_embed Scenario.garbled_service Sample.plain_client
            [PyStr "cat"] [])
     = Raise (Exn RuntimeError
                "Failed to get embedding from Ollama: 'utf-8' codec can't decode byte 0xff in position 0: invalid start byte").
Proof. repeat split. Qed.

(** C3, amended. When the requests before the [i]-th succeed and the [i]-th
    fails with cause [e] (a network error or timeout, a status other than
    200, an unreadable body or one without [embedding]: an exception that
    [except Exception] catches), both entry points raise the one uniform
    error, a [RuntimeError] whose message is
    "Failed to get embedding from Ollama: " followed by [str(e)].  For a
    status other than 200 whose body text could be read, [str(e)] is
    "Ollama API error <status>: <body text>"; for a status other than 200
    whose body text could not be read, the cause is the error of reading
    it. *)
Theorem request_failure_is_wrapped (env : Env) (self : OllamaEmbedder)
    (inputs prompts : list pyval) (tr : list Event) (i : nat) (p : pyval)
    (e : exn) :
  clean_inputs inputs = Ok prompts ->
  prompts !! i = Some p ->
  (forall j q, (j < i)%nat -> prompts !! j = Some q ->
     exists v,
       request_succeeds (http env (count_posts tr + j) (request_for self q)) v) ->
  request_fails (http env (count_posts tr + i) (request_for self p)) e ->
  is_Exception e = true ->
  fst (ingest_embed env self inputs tr) = Raise (embedding_failed e)
  /\ fst (search_embed env self inputs tr) = Raise (embedding_failed e)
  /\ exn_cls (embedding_failed e) = RuntimeError
  /\ exn_str (embedding_failed e)
     = "Failed to get embedding from Ollama: " +:+ exn_str e
  /\ (forall r body,
        http env (count_posts tr + i) (request_for self p) = PostReturns r ->
        status r <> 200 -> text r = Ok body ->
        exn_str e
        = "Ollama API error " +:+ pretty (status r) +:+ ": " +:+ body)
  /\ (forall r e',
        http env (count_posts tr + i) (request_for self p) = PostReturns r ->
        status r <> 200 -> text r = Raise e' ->
        e = e').
Proof.
  intros Hc Hp Hbefore Hfail Hexn.
  assert (Hne : inputs <> []).
  { intros ->. injection Hc as <-. discriminate. }
  destruct (loop_result_first_failure env self prompts (count_posts tr) []
              i p e Hp Hbefore Hfail) as [Hr _].
  unfold reraised in Hr. rewrite Hexn in Hr.
  unfold ingest_embed, search_embed.
  rewrite (embed_loop_raises env self inputs prompts _ tr Hne Hc Hr).
  apply body_result_Raise in Hfail.
  repeat split; auto.
  - intros r body Ho Hs Ht.
    rewrite Ho in Hfail. simpl in Hfail.
    destruct (Z.eqb_spec (status r) 200); [contradiction|].
    rewrite Ht in Hfail. now injection Hfail as <-.
  - intros r e' Ho Hs Ht.
    rewrite Ho in Hfail. simpl in Hfail.
    destruct (Z.eqb_spec (status r) 200); [contradiction|].
    rewrite Ht in Hfail. now injection Hfail as <-.
Qed.

(** The amended C3 at three inputs of which the second is answered with a
    500 and a readable body. *)
Lemma request_failure_is_wrapped_witness :
  fst (ingest_embed Sample.flaky_service Sample.metered_client
         Sample.cat_space_dogfood [])
  = Raise (Exn RuntimeError
             "Failed to get embedding from Ollama: Ollama API error 500: model not loaded").
Proof.
  apply (request_failure_is_wrapped Sample.flaky_service Sample.metered_client
           Sample.cat_space_dogfood
           [PyStr "cat"; PyStr " "; PyStr "dog food"] [] 1 (PyStr " ")
           (Exn ClientError "Ollama API error 500: model not loaded")).
  - reflexivity.
  - reflexivity.
  - intros [|j] q Hj Hq; [|lia]. injection Hq as <-.
    exists Sample.vec_cat. do 2 eexists. repeat split; reflexivity.
  - apply (fails_status
             {| status := 500;
                json := Raise (Exn ClientError "unexpected mimetype");
                text := Ok "model not loaded" |} "model not loaded");
      [discriminate|reflexivity].
  - reflexivity.
Defined.

(** C4. The prompt sent for an input item is the item with every newline
    character replaced by one space, and one space when the item is empty or
    falsy; it is never the empty string and holds no newline.  On the wire:
    in a call whose items are texts or falsy, the [i]-th request posted is
    the request for item [i] with that prompt, and it is posted whenever the
    requests before it have succeeded; and in any call every request posted
    carries the cleaned form of one of the inputs.  "hello\nworld" is sent
    as "hello world" and "" as " ". *)
Theorem prompt_is_cleaned_input :
  (forall s, s <> "" ->
     clean_input (PyStr s) = Ok (PyStr (newlines_to_spaces s)))
  /\ (forall s i,
        String.length (newlines_to_spaces s) = String.length s
        /\ String.get i (newlines_to_spaces s)
           = match String.get i s with
             | Some c => Some (if Ascii.eqb c LF then " "%char else c)
             | None => None
             end)
  /\ (forall x, truthy x = false -> clean_input x = Ok (PyStr " "))
  /\ (forall x p, clean_input x = Ok p ->
        exists s, p = PyStr s /\ s <> "" /\ has_newline s = false)
  /\ (forall env self inputs tr i x,
        constructed self ->
        (forall y, In y inputs ->
           truthy y = false \/ exists s, y = PyStr s) ->
        inputs !! i = Some x ->
        (forall j y, (j < i)%nat -> inputs !! j = Some y ->
           exists v, item_succeeds env self (count_posts tr + j) y v) ->
        exists delta,
          snd (ingest_embed env self inputs tr) = tr ++ delta
          /\ List.filter is_post delta !! i
             = Some (EPost (request_of_item self x))
          /\ sanitized x
             = match x with
               | PyStr (String c s) => newlines_to_spaces (String c s)
               | _ => " "
               end)
  /\ (forall env self inputs tr,
        constructed self ->
        exists delta,
          snd (ingest_embed env self inputs tr) = tr ++ delta
          /\ forall rq, In (EPost rq) delta ->
               exists x p,
                 In x inputs /\ clean_input x = Ok p
                 /\ req_json rq
                    = PyDict [("model", _model self); ("prompt", p)])
  /\ clean_input (PyStr ("hello" +:+ String LF "world"))
     = Ok (PyStr "hello world")
  /\ clean_input (PyStr "") = Ok (PyStr " ").
Proof.
  split; [|split; [|split; [|split; [|split; [|split; [|split]]]]]].
  - intros s Hs. unfold clean_input.
    rewrite (proj2 (truthy_str s) Hs). simpl. now rewrite replace_newline_spec.
  - intros s i. split;
      [apply newlines_to_spaces_length|apply newlines_to_spaces_get].
  - intros x Hx. unfold clean_input. now rewrite Hx.
  - intros x p [[_ ->]|(s & _ & Hs & ->)]%clean_input_Ok.
    + exists " ". repeat split. discriminate.
    + exists (newlines_to_spaces s). repeat split.
      * destruct s; [contradiction|discriminate].
      * apply newlines_to_spaces_clean.
  - intros env self inputs tr i x Hself Htext Hi Hbefore.
    assert (Hne : inputs <> []) by (intros ->; discriminate).
    destruct (clean_inputs_total inputs) as [prompts Hc].
    { intros k y Hk. exists (PyStr (sanitized y)).
      apply clean_input_sanitized, Htext.
      apply list_elem_of_In, list_elem_of_lookup. eauto. }
    destruct (posts_of_call env self inputs prompts tr Hself Hne Hc)
      as (r & delta & Hrun & Hposts).
    exists delta. unfold ingest_embed. rewrite Hrun.
    split; [reflexivity|]. split.
    + destruct (clean_inputs_item _ _ _ _ Hc Hi) as (p & Hp & Hxp).
      rewrite clean_input_sanitized in Hxp
        by (apply Htext, list_elem_of_In, list_elem_of_lookup; eauto).
      injection Hxp as <-.
      assert (Hreach : (S i <= loop_posts env self (count_posts tr) prompts)%nat).
      { apply (loop_posts_reaches env self prompts _ i _ Hp).
        intros j q Hj Hq.
        destruct (clean_inputs_prompt _ _ _ _ Hc Hq) as (y & Hy & Hyq).
        destruct (Hbefore j y Hj Hy) as (v & q' & Hq' & Hv).
        exists v. congruence. }
      rewrite Hposts, list_lookup_fmap, lookup_take_lt by lia.
      now rewrite Hp.
    + destruct x as [| | | |s| | | |]; try reflexivity.
      now destruct s.
  - intros env self inputs tr Hself.
    destruct inputs as [|x0 xs].
    { exists []. split; [simpl; now rewrite app_nil_r|]. intros rq []. }
    destruct (embed_shape env self (x0 :: xs) tr Hself) as (r & delta & Hrun & Hsh);
      [discriminate|].
    exists delta. unfold ingest_embed. rewrite Hrun. split; [reflexivity|].
    intros rq Hin.
    assert (Hposted : exists prompts p,
               clean_inputs (x0 :: xs) = Ok prompts /\ In p prompts
               /\ rq = request_for self p).
    { destruct Hsh as [e He|prompts e Hc Hl|prompts vs evs Hc Hl Hm].
      - contradiction.
      - unfold session_events in Hin.
        destruct Hin as [Hin|[Hin|Hin]]; try discriminate.
        apply in_app_or in Hin as [Hin|[Hin|[]]]; [|discriminate].
        apply exchanges_In_post in Hin as (p & Hp & ->).
        exists prompts, p. repeat split; auto.
        rewrite <- (take_drop (loop_posts env self (count_posts tr) prompts)
                      prompts).
        apply in_or_app. now left.
      - apply in_app_or in Hin as [Hin|[Hin|Hin]]; [|discriminate|].
        + unfold session_events in Hin.
          destruct Hin as [Hin|[Hin|Hin]]; try discriminate.
          apply in_app_or in Hin as [Hin|[Hin|[]]]; [|discriminate].
          apply exchanges_In_post in Hin as (p & Hp & ->).
          exists prompts, p. repeat split; auto.
          rewrite <- (take_drop (loop_posts env self (count_posts tr) prompts)
                        prompts).
          apply in_or_app. now left.
        + apply metrics_events_kinds in Hm as (Hh & _ & _).
          assert (Hf : In (EPost rq) (List.filter is_http evs))
            by (apply List.filter_In; auto).
          rewrite Hh in Hf. contradiction. }
    destruct Hposted as (prompts & p & Hc & Hp & ->).
    apply list_elem_of_In, list_elem_of_lookup in Hp as [i Hi].
    destruct (clean_inputs_prompt _ _ _ _ Hc Hi) as (x & Hx & Hxp).
    exists x, p. repeat split; auto.
    apply list_elem_of_In, list_elem_of_lookup. eauto.
  - reflexivity.
  - reflexivity.
Qed.

(** C4 at [["hello\nworld", ""]] with a service that answers every request:
    the two requests posted carry "hello world" and " ". *)
Lemma prompt_is_cleaned_input_witness :
  clean_input (PyStr ("dog" +:+ String LF "food"))
  = Ok (PyStr (newlines_to_spaces ("dog" +:+ String LF "food")))
  /\ clean_input PyNone = Ok (PyStr " ")
  /\ (exists delta,
        snd (ingest_embed Scenario.counting_service Sample.plain_client
               [PyStr ("hello" +:+ String LF "world"); PyStr ""] [])
        = [] ++ delta
        /\ List.filter is_post delta !! 0%nat
           = Some (EPost
                     {| req_url := "http://ollama:11434/api/embeddings";
                        req_json :=
                          PyDict [("model", PyStr "nomic-embed-text");
                                  ("prompt", PyStr "hello world")];
                        req_timeout_total := 30 |}))
  /\ (exists delta,
        snd (ingest_embed Scenario.counting_service Sample.plain_client
               [PyStr ("hello" +:+ String LF "world"); PyStr ""] [])
        = [] ++ delta
        /\ List.filter is_post delta !! 1%nat
           = Some (EPost
                     {| req_url := "http://ollama:11434/api/embeddings";
                        req_json :=
                          PyDict [("model", PyStr "nomic-embed-text");
                                  ("prompt", PyStr " ")];
                        req_timeout_total := 30 |})).
Proof.
  destruct prompt_is_cleaned_input as (Hstr & _ & Hfalsy & _ & Hsent & _).
  assert (Hself : constructed Sample.plain_client)
    by (exists Sample.default_config, [], []; reflexivity).
  assert (Htext : forall y,
            In y [PyStr ("hello" +:+ String LF "world"); PyStr ""] ->
            truthy y = false \/ exists s, y = PyStr s).
  { intros y [<-|[<-|[]]]; right; eauto. }
  split; [|split; [|split]].
  - apply Hstr. discriminate.
  - apply Hfalsy. reflexivity.
  - destruct (Hsent Scenario.counting_service Sample.plain_client
                [PyStr ("hello" +:+ String LF "world"); PyStr ""] [] 0%nat
                (PyStr ("hello" +:+ String LF "world")) Hself Htext eq_refl)
      as (delta & Hd & Hp & _).
    + intros j y Hj. lia.
    + exists delta. split; [exact Hd|exact Hp].
  - destruct (Hsent Scenario.counting_service Sample.plain_client
                [PyStr ("hello" +:+ String LF "world"); PyStr ""] [] 1%nat
                (PyStr "") Hself Htext eq_refl)
      as (delta & Hd & Hp & _).
    + intros [|j] y Hj Hy; [|lia]. injection Hy as <-.
      exists (PyList [PyInt 0]), (PyStr "hello world").
      split; [reflexivity|]. do 2 eexists. repeat split; reflexivity.
    + exists delta. split; [exact Hd|exact Hp].
Defined.

(** C6. For a client built by [__init__]: when metrics are enabled, a
    non-empty call that returns has read the clock exactly twice and has
    emitted exactly two metric events, one increment of the request counter
    by the number of inputs and one observation of the latency summary with
    the second clock reading minus the first, both with the labels of the
    configuration ([user_metrics_labels], or the empty mapping) and on the
    metrics registered at construction; when metrics are disabled, a call
    emits no metric event, however it ends. *)
Theorem metrics_once_per_successful_call (env : Env) (config : Config)
    (tr0 tr1 : list Event) (self : OllamaEmbedder) (inputs : list pyval)
    (tr : list Event) :
  __init__ config tr0 = (Ok self, tr1) ->
  exists delta,
    snd (ingest_embed env self inputs tr) = tr ++ delta
    /\ (_collect_metrics self = false -> List.filter is_metric delta = [])
    /\ (_collect_metrics self = true ->
        inputs <> [] ->
        forall vecs,
          fst (ingest_embed env self inputs tr) = Ok vecs ->
          let labels := default (PyDict []) (cfg_user_metrics_labels config) in
          let start_time := monotonic env (count_clock tr) in
          let end_time := monotonic env (S (count_clock tr)) in
          exists counter summary,
            _request_counter self = Some counter
            /\ metric_name counter = "embedder_ollama_usage_requests"
            /\ _latency_summary self = Some summary
            /\ metric_name summary = "embedder_ollama_latency_seconds"
            /\ List.filter is_clock delta
               = [EMonotonic start_time; EMonotonic end_time]
            /\ List.filter is_metric delta
               = [EIncrement counter (Z.of_nat (length inputs)) labels;
                  EObserve summary (end_time - start_time)%float labels]).
Proof.
  intros Hinit.
  assert (Hself : constructed self) by (exists config, tr0, tr1; exact Hinit).
  destruct inputs as [|x0 xs].
  { exists []. split; [simpl; now rewrite app_nil_r|]. split; [reflexivity|].
    intros _ Hne. contradiction. }
  destruct (embed_shape env self (x0 :: xs) tr Hself) as (r & delta & Hrun & Hsh);
    [discriminate|].
  exists delta. unfold ingest_embed. rewrite Hrun. cbn [fst snd].
  split; [reflexivity|]. split.
  - intros Hoff.
    destruct Hsh as [e He|prompts e Hc Hl|prompts vs evs Hc Hl Hm].
    + reflexivity.
    + apply session_events_metric.
    + rewrite List.filter_app, session_events_metric.
      unfold metrics_events in Hm. rewrite Hoff in Hm. now injection Hm as <-.
  - intros Hon _ vecs Hok.
    destruct (init_enabled config tr0 tr1 self Hinit Hon)
      as (o & names & _ & _ & _ & Hlab & Hcnt & Hsum).
    destruct Hsh as [e He|prompts e Hc Hl|prompts vs evs Hc Hl Hm];
      try discriminate.
    unfold metrics_events in Hm. rewrite Hon, Hcnt, Hlab, Hsum in Hm.
    injection Hm as <-.
    do 2 eexists. split; [exact Hcnt|]. split; [reflexivity|].
    split; [exact Hsum|]. split; [reflexivity|].
    rewrite !List.filter_app, session_events_clock, session_events_metric.
    split; reflexivity.
Qed.

(** C6 at three inputs that all succeed, the clock reading 1.5 and then 4. *)
Lemma metrics_once_per_successful_call_witness :
  exists delta,
    snd (ingest_embed Sample.good_service Sample.metered_client
           Sample.cat_space_dogfood []) = [] ++ delta
    /\ List.filter is_metric delta
       = [EIncrement Sample.usage_counter 3 Sample.labels;
          EObserve Sample.latency_summary 2.5%float Sample.labels].
Proof.
  destruct (metrics_once_per_successful_call Sample.good_service
              Sample.metrics_config []
              [EGetCounter Sample.usage_counter;
               EGetSummary Sample.latency_summary]
              Sample.metered_client Sample.cat_space_dogfood [] eq_refl)
    as (delta & Hd & _ & Hon).
  exists delta. split; [exact Hd|].
  destruct (Hon eq_refl ltac:(discriminate)
              [Sample.vec_cat; Sample.vec_space; Sample.vec_dogfood] eq_refl)
    as (counter & summary & Hc & _ & Hs & _ & _ & Hm).
  injection Hc as <-. injection Hs as <-. exact Hm.
Defined.

(** C9, as stated, fails: with two inputs and a service that answers the
    first request with a 500, the call posts one request, not two. *)
Lemma one_post_for_two_inputs :
  length [PyStr "a"; PyStr "b"] = 2%nat
  /\ count_posts
       (snd (ingest_embed Sample.broken_service Sample.plain_client
               [PyStr "a"; PyStr "b"] []))
     = 1%nat.
Proof. split; reflexivity. Qed.

(** C9, amended. For a constructed client and a non-empty input list, the
    HTTP events of a call are one request after the other, each followed by
    its reply before the next is posted; the requests are those for a prefix
    of the inputs, in input order, each a POST to the configured endpoint
    with body {"model": <model>, "prompt": <cleaned input>} and a total
    timeout of 30.  The prefix is this one: nothing is posted when an input
    cannot be cleaned; otherwise the request for an item is posted exactly
    when the requests before it have succeeded, so that every request but
    the last posted has succeeded and no request follows one that failed; a
    call that returns, and so a call on which every per-item request
    succeeds, has posted exactly one request per input. *)
Theorem requests_are_sequential (env : Env) (self : OllamaEmbedder)
    (inputs : list pyval) (tr : list Event) :
  constructed self ->
  inputs <> [] ->
  exists r delta sent,
    ingest_embed env self inputs tr = (r, tr ++ delta)
    /\ List.filter is_http delta = exchanges env self (count_posts tr) sent
    /\ (length sent <= length inputs)%nat
    /\ (forall i p, sent !! i = Some p ->
          (exists x, inputs !! i = Some x /\ clean_input x = Ok p)
          /\ req_url (request_for self p) = _endpoint self
          /\ req_json (request_for self p)
             = PyDict [("model", _model self); ("prompt", p)]
          /\ req_timeout_total (request_for self p) = 30)
    /\ (forall i p, sent !! i = Some p -> (S i < length sent)%nat ->
          exists v,
            request_succeeds
              (http env (count_posts tr + i) (request_for self p)) v)
    /\ (forall vecs, r = Ok vecs -> length sent = length inputs)
    /\ ((forall i x, inputs !! i = Some x ->
           exists v, item_succeeds env self (count_posts tr + i) x v) ->
        length sent = length inputs)
    /\ (forall i x e,
          inputs !! i = Some x -> clean_input x = Raise e -> sent = [])
    /\ ((forall j y, inputs !! j = Some y ->
           exists p, clean_input y = Ok p) ->
        forall i,
          (i < length inputs)%nat ->
          (forall j y, (j < i)%nat -> inputs !! j = Some y ->
             exists v, item_succeeds env self (count_posts tr + j) y v) ->
          (i < length sent)%nat).
Proof.
  intros Hself Hne.
  destruct (embed_shape env self inputs tr Hself Hne) as (r & delta & Hrun & Hsh).
  assert (Hall_ok :
    (forall i x, inputs !! i = Some x ->
       exists v, item_succeeds env self (count_posts tr + i) x v) ->
    exists vecs, r = Ok vecs).
  { intros Hall.
    destruct (all_succeed_loop env self inputs tr Hall)
      as (prompts & vs & Hc & Hr & _).
    destruct Hsh as [e He|prompts' e Hc' Hl|prompts' vs' evs Hc' Hl Hm];
      [congruence| |eauto].
    assert (prompts' = prompts) as -> by congruence. congruence. }
  assert (Hsent : forall prompts,
    clean_inputs inputs = Ok prompts ->
    let sent := take (loop_posts env self (count_posts tr) prompts) prompts in
    (length sent <= length inputs)%nat
    /\ (forall i p, sent !! i = Some p ->
          (exists x, inputs !! i = Some x /\ clean_input x = Ok p)
          /\ req_url (request_for self p) = _endpoint self
          /\ req_json (request_for self p)
             = PyDict [("model", _model self); ("prompt", p)]
          /\ req_timeout_total (request_for self p) = 30)
    /\ (forall i p, sent !! i = Some p -> (S i < length sent)%nat ->
          exists v,
            request_succeeds
              (http env (count_posts tr + i) (request_for self p)) v)
    /\ (forall i x e,
          inputs !! i = Some x -> clean_input x = Raise e -> sent = [])
    /\ (forall i,
          (i < length inputs)%nat ->
          (forall j y, (j < i)%nat -> inputs !! j = Some y ->
             exists v, item_succeeds env self (count_posts tr + j) y v) ->
          (i < length sent)%nat)).
  { intros prompts Hc sent.
    pose proof (loop_posts_le env self prompts (count_posts tr)) as Hle.
    destruct (clean_inputs_lookup _ _ Hc) as [Hlen _].
    assert (Hsl : length sent = loop_posts env self (count_posts tr) prompts).
    { unfold sent. rewrite length_take. lia. }
    split; [lia|]. split; [|split; [|split]].
    - intros i p Hi. unfold sent in Hi.
      apply lookup_take_Some in Hi as [Hi _].
      split; [now apply (clean_inputs_prompt _ _ _ _ Hc Hi)|].
      repeat split.
    - intros i p Hi Hlt. unfold sent in Hi.
      apply lookup_take_Some in Hi as [Hi _].
      apply (loop_posts_before env self prompts _ _ _ Hi). lia.
    - intros i x e Hi Hx.
      destruct (clean_inputs_item _ _ _ _ Hc Hi) as (p & _ & Hp). congruence.
    - intros i Hi Hbefore. rewrite Hsl.
      destruct (lookup_lt_is_Some_2 prompts i) as [p Hp]; [lia|].
      apply (loop_posts_reaches env self prompts _ i p Hp).
      intros j q Hj Hq.
      destruct (clean_inputs_prompt _ _ _ _ Hc Hq) as (y & Hy & Hyq).
      destruct (Hbefore j y Hj Hy) as (v & q' & Hq' & Hv).
      exists v. congruence. }
  destruct Hsh as [e He|prompts e Hc Hl|prompts vs evs Hc Hl Hm].
  - exists (Raise e), [], []. unfold ingest_embed.
    split; [exact Hrun|]. split; [reflexivity|]. split; [simpl; lia|].
    split; [intros i p Hi; discriminate|].
    split; [intros i p Hi; discriminate|].
    split; [discriminate|].
    split.
    { intros Hall. destruct (Hall_ok Hall) as [vecs Hv]. discriminate. }
    split; [reflexivity|].
    intros Hclean. destruct (clean_inputs_total inputs Hclean) as [ps Hps].
    congruence.
  - destruct (Hsent prompts Hc) as (H1 & H2 & H3 & H4 & H5).
    eexists (Raise e), _, _. unfold ingest_embed.
    split; [exact Hrun|]. split; [apply session_events_http|].
    split; [exact H1|]. split; [exact H2|]. split; [exact H3|].
    split; [discriminate|].
    split.
    { intros Hall. destruct (Hall_ok Hall) as [vecs Hv]. discriminate. }
    split; [exact H4|]. intros _. exact H5.
  - destruct (Hsent prompts Hc) as (H1 & H2 & H3 & H4 & H5).
    destruct (loop_result_Ok_inv env self prompts _ _ _ Hl) as [Hposts _].
    destruct (clean_inputs_lookup _ _ Hc) as [Hlen _].
    assert (Hfull : length (take (loop_posts env self (count_posts tr) prompts)
                              prompts) = length inputs).
    { rewrite length_take. lia. }
    eexists (Ok vs), _, _. unfold ingest_embed.
    split; [exact Hrun|]. split.
    { rewrite List.filter_app, session_events_http.
      cbn [List.filter is_http].
      apply metrics_events_kinds in Hm as (-> & _ & _). apply app_nil_r. }
    split; [exact H1|]. split; [exact H2|]. split; [exact H3|].
    split; [auto|]. split; [auto|].
    split; [exact H4|]. intros _. exact H5.
Qed.

(** The amended C9 at three inputs of which the second is answered with a
    500: the first two requests are posted, the third is not. *)
Lemma requests_are_sequential_witness :
  exists r delta sent,
    ingest_embed Sample.flaky_service Sample.metered_client
      Sample.cat_space_dogfood [] = (r, [] ++ delta)
    /\ List.filter is_http delta
       = exchanges Sample.flaky_service Sample.metered_client
           (count_posts []) sent
    /\ (length sent <= length Sample.cat_space_dogfood)%nat
    /\ (1 < length sent)%nat
    /\ (forall vecs, r = Ok vecs ->
          length sent = length Sample.cat_space_dogfood).
Proof.
  destruct (requests_are_sequential Sample.flaky_service Sample.metered_client
              Sample.cat_space_dogfood [])
    as (r & delta & sent & Hrun & Hhttp & Hle & _ & _ & Hok & _ & _ & Hgo).
  - exists Sample.metrics_config, [],
      [EGetCounter Sample.usage_counter; EGetSummary Sample.latency_summary].
    reflexivity.
  - discriminate.
  - exists r, delta, sent. repeat split; auto.
    apply Hgo.
    + intros [|[|[|j]]] y Hy; simpl in Hy; try discriminate;
        injection Hy as <-; eexists; reflexivity.
    + simpl. lia.
    + intros [|j] y Hj Hy; [|lia]. injection Hy as <-.
      exists Sample.vec_cat, (PyStr "cat"). split; [reflexivity|].
      do 2 eexists. repeat split; reflexivity.
Defined.

(** * Further properties of the code *)

(** ** More about the loop *)

Section LoopMore.

Variable env : Env.
Variable self : OllamaEmbedder.

(** The values the loop started with stay in front of those it appends. *)
Lemma loop_result_acc (prompts : list pyval) :
  forall k acc,
    loop_result env self k prompts acc
    = match loop_result env self k prompts [] with
      | Ok vs => Ok (acc ++ vs)
      | Raise e => Raise e
      end.
Proof.
  induction prompts as [|p rest IH]; intros k acc; simpl.
  - now rewrite app_nil_r.
  - destruct (guarded (body_result (http env k (request_for self p))))
      as [v|e]; [|reflexivity].
    rewrite (IH (S k) (acc ++ [v])), (IH (S k) [v]).
    destruct (loop_result env self (S k) rest []) as [vs|e];
      [|reflexivity].
    now rewrite <- app_assoc.
Qed.

(** The loop over two lists in a row is the loop over the first, then the
    loop over the second, numbered on. *)
Lemma loop_result_app (ps : list pyval) :
  forall qs k acc,
    loop_result env self k (ps ++ qs) acc
    = match loop_result env self k ps acc with
      | Ok acc' => loop_result env self (k + length ps) qs acc'
      | Raise e => Raise e
      end.
Proof.
  induction ps as [|p rest IH]; intros qs k acc; simpl.
  - now rewrite Nat.add_0_r.
  - destruct (guarded (body_result (http env k (request_for self p))))
      as [v|e]; [|reflexivity].
    rewrite IH. now replace (S k + length rest)%nat
                  with (k + S (length rest))%nat by lia.
Qed.

Lemma session_events_posts (tr : list Event) (prompts : list pyval) :
  count_posts (session_events env self tr prompts)
  = loop_posts env self (count_posts tr) prompts.
Proof.
  unfold session_events.
  change (count_posts (?a :: ?b :: ?l)) with (count_posts l).
  rewrite count_posts_app, exchanges_posts, length_take.
  pose proof (loop_posts_le env self prompts (count_posts tr)).
  unfold count_posts at 2. simpl. lia.
Qed.

Lemma metrics_events_no_post (n : nat) (t0 t1 : float) (evs : list Event) :
  metrics_events self n t0 t1 = Some evs -> count_posts evs = O.
Proof.
  unfold metrics_events. destruct (_collect_metrics self).
  - destruct (_request_counter self), (_user_metrics_labels self),
      (_latency_summary self); try discriminate.
    now intros [= <-].
  - now intros [= <-].
Qed.

End LoopMore.

Lemma clean_inputs_app (xs ys : list pyval) :
  clean_inputs (xs ++ ys)
  = match clean_inputs xs with
    | Raise e => Raise e
    | Ok ps =>
        match clean_inputs ys with
        | Raise e => Raise e
        | Ok qs => Ok (ps ++ qs)
        end
    end.
Proof.
  induction xs as [|x xs IH]; simpl.
  - now destruct (clean_inputs ys).
  - destruct (clean_input x) as [p|e]; [|reflexivity].
    rewrite IH. destruct (clean_inputs xs) as [ps|e]; [|reflexivity].
    now destruct (clean_inputs ys).
Qed.

Lemma newlines_to_spaces_idem (s : string) :
  newlines_to_spaces (newlines_to_spaces s) = newlines_to_spaces s.
Proof.
  induction s as [|c s IH]; [reflexivity|]. simpl. rewrite IH.
  destruct (Ascii.eqb c LF) eqn:E; [reflexivity|]. now rewrite E.
Qed.

(** A call that returns went through all three stages. *)
Lemma embed_returned_inv (env : Env) (self : OllamaEmbedder)
    (inputs : list pyval) (tr tr' : list Event) (vecs : list pyval) :
  constructed self ->
  inputs <> [] ->
  _embed env self inputs tr = (Ok vecs, tr') ->
  exists prompts evs,
    clean_inputs inputs = Ok prompts
    /\ loop_result env self (count_posts tr) prompts [] = Ok vecs
    /\ metrics_events self (length inputs)
         (monotonic env (count_clock tr)) (monotonic env (S (count_clock tr)))
       = Some evs
    /\ tr' = tr ++ session_events env self tr prompts
                ++ EMonotonic (monotonic env (S (count_clock tr))) :: evs.
Proof.
  intros Hself Hne Hrun.
  destruct (embed_shape env self inputs tr Hself Hne)
    as (r & delta & Hrun' & Hsh).
  rewrite Hrun in Hrun'. injection Hrun' as <- ->.
  inversion Hsh as [| |prompts vs evs Hc Hl Hm]; subst.
  exists prompts, evs. auto.
Qed.

(** ** More about construction *)

(** [__init__] by cases on the metrics factory and the labels. *)
Lemma init_run (config : Config) (tr : list Event) :
  __init__ config tr
  = match default PyNone (cfg_metrics_factory config) with
    | PyNone => (Ok (client_of config false None None None), tr)
    | PyObj o =>
        if obj_is_metrics_factory o
        then
          let labels := default (PyDict []) (cfg_user_metrics_labels config) in
          match call_keys labels with
          | Ok names =>
              (Ok (client_of config true (Some labels)
                     (Some (usage_requests o names))
                     (Some (latency_seconds o names))),
               tr ++ [EGetCounter (usage_requests o names);
                      EGetSummary (latency_seconds o names)])
          | Raise e => (Raise e, tr)
          end
        else
          (Raise (Exn TypeError
                    "Metrics factory must be an instance of MetricsFactory"),
           tr)
    | _ =>
        (Raise (Exn TypeError
                  "Metrics factory must be an instance of MetricsFactory"),
         tr)
    end.
Proof.
  unfold __init__.
  destruct (default PyNone (cfg_metrics_factory config)) as [| | | | | | | |o];
    try reflexivity.
  cbn [is_None isinstance_MetricsFactory negb andb].
  destruct (obj_is_metrics_factory o); cbn [negb]; [|reflexivity].
  unfold bind, lift.
  destruct (call_keys _) as [names|e]; [|reflexivity].
  cbn. unfold usage_requests, latency_seconds, client_of.
  now norm_app.
Qed.

(** X1. Every client that [__init__] returns has the model and the base URL
    of the configuration, or their defaults, and its endpoint is its base URL
    followed by "/api/embeddings", with or without metrics. *)
Theorem constructed_client_endpoint (config : Config) (tr0 tr1 : list Event)
    (self : OllamaEmbedder) :
  __init__ config tr0 = (Ok self, tr1) ->
  _model self = default (PyStr "nomic-embed-text") (cfg_model config)
  /\ _base_url self = default "http://ollama:11434" (cfg_base_url config)
  /\ _endpoint self = _base_url self +:+ "/api/embeddings".
Proof.
  rewrite init_run.
  destruct (default PyNone (cfg_metrics_factory config)) as [| | | | | | | |o];
    try discriminate.
  - intros [= <- _]. repeat split.
  - destruct (obj_is_metrics_factory o); [|discriminate].
    cbn zeta. destruct (call_keys _); [|discriminate].
    intros [= <- _]. repeat split.
Qed.

(** X1 at [{"model": "all-minilm", "base_url": "http://localhost:11434"}]. *)
Lemma constructed_client_endpoint_witness :
  _model (client_of Scenario.local_config false None None None)
  = PyStr "all-minilm"
  /\ _base_url (client_of Scenario.local_config false None None None)
     = "http://localhost:11434"
  /\ _endpoint (client_of Scenario.local_config false None None None)
     = "http://localhost:11434/api/embeddings".
Proof.
  apply (constructed_client_endpoint Scenario.local_config [] []
           (client_of Scenario.local_config false None None None)).
  reflexivity.
Defined.

(** X2. A client that [__init__] returns with metrics enabled holds a labels
    mapping, and has registered, in this order and with nothing else, the
    request counter and the latency summary, both under the keys of that
    mapping as label names (in the mapping's order) and on the factory of
    the configuration. *)
Theorem enabled_client_registration (config : Config) (tr0 tr1 : list Event)
    (self : OllamaEmbedder) :
  __init__ config tr0 = (Ok self, tr1) ->
  _collect_metrics self = true ->
  exists o d,
    cfg_metrics_factory config = Some (PyObj o)
    /\ _user_metrics_labels self = Some (PyDict d)
    /\ _request_counter self = Some (usage_requests o (map fst d))
    /\ _latency_summary self = Some (latency_seconds o (map fst d))
    /\ tr1 = tr0 ++ [EGetCounter (usage_requests o (map fst d));
                     EGetSummary (latency_seconds o (map fst d))].
Proof.
  rewrite init_run.
  destruct (cfg_metrics_factory config) as [v|]; cbn [from_option id];
    [|intros [= <- _]; discriminate].
  destruct v as [| | | | | | | |o]; try discriminate.
  { intros [= <- _]. discriminate. }
  destruct (obj_is_metrics_factory o); [|discriminate].
  cbn zeta.
  destruct (default (PyDict []) (cfg_user_metrics_labels config))
    as [| | | | | | |d|] eqn:Hl; try discriminate.
  cbn [call_keys]. intros [= <- <-] _.
  exists o, d. repeat split.
Qed.

(** X2 at a factory and the labels [{"service": "memmachine"}]. *)
Lemma enabled_client_registration_witness :
  exists o d,
    cfg_metrics_factory Sample.metrics_config = Some (PyObj o)
    /\ _user_metrics_labels Sample.metered_client = Some (PyDict d)
    /\ _request_counter Sample.metered_client
       = Some (usage_requests o (map fst d))
    /\ _latency_summary Sample.metered_client
       = Some (latency_seconds o (map fst d))
    /\ [EGetCounter Sample.usage_counter; EGetSummary Sample.latency_summary]
       = [] ++ [EGetCounter (usage_requests o (map fst d));
                EGetSummary (latency_seconds o (map fst d))].
Proof.
  apply (enabled_client_registration Sample.metrics_config []
           [EGetCounter Sample.usage_counter;
            EGetSummary Sample.latency_summary] Sample.metered_client);
    reflexivity.
Defined.



(** X4. [__init__] only ever appends to the trace, never posts a request and
    never reads the clock; and a construction that raises has left no event
    at all (no metric is registered before the error), the error being the
    [TypeError] of the factory check or the [AttributeError] of the labels. *)
Theorem init_fails_cleanly (config : Config) (tr : list Event) :
  exists delta,
    snd (__init__ config tr) = tr ++ delta
    /\ List.filter is_http delta = []
    /\ List.filter is_clock delta = []
    /\ forall e,
         fst (__init__ config tr) = Raise e ->
         delta = []
         /\ (exn_cls e = TypeError \/ exn_cls e = AttributeError).
Proof.
  rewrite init_run.
  destruct (default PyNone (cfg_metrics_factory config)) as [| | | | | | | |o];
    try (exists []; rewrite app_nil_r; do 3 (split; [reflexivity|]);
         intros e [= <-]; split; auto).
  destruct (obj_is_metrics_factory o).
  - cbn zeta.
    destruct (default (PyDict []) (cfg_user_metrics_labels config));
      cbn [call_keys];
      try (exists []; rewrite app_nil_r; do 3 (split; [reflexivity|]);
           intros e [= <-]; split; auto).
    eexists. do 3 (split; [reflexivity|]). discriminate.
  - exists []. rewrite app_nil_r. do 3 (split; [reflexivity|]).
    intros e [= <-]. split; auto.
Qed.

(** ** More about a call *)

(** X5. When the requests before the [i]-th succeed and the [i]-th fails, the
    call raises having done exactly this: one clock reading, the session
    opened, the first [i + 1] requests each with its reply, the session
    closed.  No request follows the failed one, the clock is not read a
    second time and no metric is emitted, also by a client with metrics
    enabled. *)
Theorem failed_call_trace (env : Env) (self : OllamaEmbedder)
    (inputs prompts : list pyval) (tr : list Event) (i : nat) (p : pyval)
    (e : exn) :
  clean_inputs inputs = Ok prompts ->
  prompts !! i = Some p ->
  (forall j q, (j < i)%nat -> prompts !! j = Some q ->
     exists v,
       request_succeeds (http env (count_posts tr + j) (request_for self q)) v) ->
  request_fails (http env (count_posts tr + i) (request_for self p)) e ->
  exists e',
    ingest_embed env self inputs tr
    = (Raise e',
       tr ++ EMonotonic (monotonic env (count_clock tr))
          :: ESessionOpen
          :: exchanges env self (count_posts tr) (take (S i) prompts)
          ++ [ESessionClose]).
Proof.
  intros Hc Hp Hbefore Hfail.
  assert (Hne : inputs <> []).
  { intros ->. injection Hc as <-. discriminate. }
  destruct (loop_result_first_failure env self prompts (count_posts tr) []
              i p e Hp Hbefore Hfail) as [Hr Hposts].
  exists (reraised e). unfold ingest_embed.
  rewrite (embed_loop_raises env self inputs prompts _ tr Hne Hc Hr).
  unfold session_events. now rewrite Hposts.
Qed.

(** X5 at three inputs of which the second is answered with a 500, for a
    client with metrics enabled. *)
Lemma failed_call_trace_witness :
  exists e',
    ingest_embed Sample.flaky_service Sample.metered_client
      Sample.cat_space_dogfood []
    = (Raise e',
       [] ++ EMonotonic 1.5
          :: ESessionOpen
          :: exchanges Sample.flaky_service Sample.metered_client
               (count_posts [])
               (take 2 [PyStr "cat"; PyStr " "; PyStr "dog food"])
          ++ [ESessionClose]).
Proof.
  apply (failed_call_trace Sample.flaky_service Sample.metered_client
           Sample.cat_space_dogfood
           [PyStr "cat"; PyStr " "; PyStr "dog food"] [] 1 (PyStr " ")
           (Exn ClientError "Ollama API error 500: model not loaded")).
  - reflexivity.
  - reflexivity.
  - intros [|j] q Hj Hq; [|lia]. injection Hq as <-.
    exists Sample.vec_cat. do 2 eexists. repeat split; reflexivity.
  - apply (fails_status
             {| status := 500;
                json := Raise (Exn ClientError "unexpected mimetype");
                text := Ok "model not loaded" |} "model not loaded");
      [discriminate|reflexivity].
Defined.

(** X6. A call of a constructed client on which every per-item request
    succeeds does exactly this, in this order: reads the clock, opens the
    session, posts one request per input each followed by its reply, closes
    the session, reads the clock again, and only then emits its metrics.  The
    measured interval so contains the opening and the closing of the
    session. *)
Theorem returned_call_trace (env : Env) (self : OllamaEmbedder)
    (inputs : list pyval) (tr : list Event) :
  constructed self ->
  inputs <> [] ->
  (forall i x, inputs !! i = Some x ->
     exists v, item_succeeds env self (count_posts tr + i) x v) ->
  exists prompts vecs evs,
    clean_inputs inputs = Ok prompts
    /\ metrics_events self (length inputs)
         (monotonic env (count_clock tr)) (monotonic env (S (count_clock tr)))
       = Some evs
    /\ ingest_embed env self inputs tr
       = (Ok vecs,
          tr ++ EMonotonic (monotonic env (count_clock tr))
             :: ESessionOpen
             :: exchanges env self (count_posts tr) prompts
             ++ ESessionClose
             :: EMonotonic (monotonic env (S (count_clock tr)))
             :: evs).
Proof.
  intros Hself Hne Hall.
  destruct (all_succeed_loop env self inputs tr Hall)
    as (prompts & vs & Hc & Hr & _).
  destruct (constructed_metrics self (length inputs)
              (monotonic env (count_clock tr))
              (monotonic env (S (count_clock tr))) Hself) as [evs Hm].
  destruct (loop_result_Ok_inv env self prompts _ _ _ Hr) as [Hposts _].
  exists prompts, vs, evs. split; [exact Hc|]. split; [exact Hm|].
  unfold ingest_embed.
  rewrite (embed_loop_returns env self inputs prompts vs evs tr Hne Hc Hr Hm).
  unfold session_events. rewrite Hposts, firstn_all. now norm_app.
Qed.

(** X6 at the scenario [["cat", " ", "dog food"]] with metrics enabled. *)
Lemma returned_call_trace_witness :
  exists prompts vecs evs,
    clean_inputs Sample.cat_space_dogfood = Ok prompts
    /\ metrics_events Sample.metered_client
         (length Sample.cat_space_dogfood)
         (monotonic Sample.good_service (count_clock []))
         (monotonic Sample.good_service (S (count_clock [])))
       = Some evs
    /\ ingest_embed Sample.good_service Sample.metered_client
         Sample.cat_space_dogfood []
       = (Ok vecs,
          [] ++ EMonotonic (monotonic Sample.good_service (count_clock []))
             :: ESessionOpen
             :: exchanges Sample.good_service Sample.metered_client
                  (count_posts []) prompts
             ++ ESessionClose
             :: EMonotonic
                  (monotonic Sample.good_service (S (count_clock [])))
             :: evs).
Proof.
  apply (returned_call_trace Sample.good_service Sample.metered_client
           Sample.cat_space_dogfood []).
  - exists Sample.metrics_config, [],
      [EGetCounter Sample.usage_counter; EGetSummary Sample.latency_summary].
    reflexivity.
  - discriminate.
  - intros [|[|[|i]]] x Hx; simpl in Hx; try discriminate;
      injection Hx as <-.
    + exists Sample.vec_cat, (PyStr "cat"). split; [reflexivity|].
      do 2 eexists. repeat split; reflexivity.
    + exists Sample.vec_space, (PyStr " "). split; [reflexivity|].
      do 2 eexists. repeat split; reflexivity.
    + exists Sample.vec_dogfood, (PyStr "dog food"). split; [reflexivity|].
      do 2 eexists. repeat split; reflexivity.
Defined.

(** X7. [except Exception] does not catch everything: when the first failing
    request fails with an exception that is not an [Exception] (the
    cancellation of the calling task), the call raises that exception
    itself, not the uniform [RuntimeError]. *)
Theorem cancellation_is_not_wrapped (env : Env) (self : OllamaEmbedder)
    (inputs prompts : list pyval) (tr : list Event) (i : nat) (p : pyval)
    (e : exn) :
  clean_inputs inputs = Ok prompts ->
  prompts !! i = Some p ->
  (forall j q, (j < i)%nat -> prompts !! j = Some q ->
     exists v,
       request_succeeds (http env (count_posts tr + j) (request_for self q)) v) ->
  request_fails (http env (count_posts tr + i) (request_for self p)) e ->
  is_Exception e = false ->
  fst (ingest_embed env self inputs tr) = Raise e
  /\ fst (search_embed env self inputs tr) = Raise e.
Proof.
  intros Hc Hp Hbefore Hfail Hexn.
  assert (Hne : inputs <> []).
  { intros ->. injection Hc as <-. discriminate. }
  destruct (loop_result_first_failure env self prompts (count_posts tr) []
              i p e Hp Hbefore Hfail) as [Hr _].
  unfold reraised in Hr. rewrite Hexn in Hr.
  unfold ingest_embed, search_embed.
  rewrite (embed_loop_raises env self inputs prompts _ tr Hne Hc Hr).
  split; reflexivity.
Qed.

(** X7 at three inputs, the task being cancelled during the second
    request. *)
Lemma cancellation_is_not_wrapped_witness :
  fst (ingest_embed Scenario.cancelling_service Sample.plain_client
         Sample.cat_space_dogfood [])
  = Raise (Exn CancelledError "")
  /\ fst (search_embed Scenario.cancelling_service Sample.plain_client
            Sample.cat_space_dogfood [])
     = Raise (Exn CancelledError "").
Proof.
  apply (cancellation_is_not_wrapped Scenario.cancelling_service
           Sample.plain_client Sample.cat_space_dogfood
           [PyStr "cat"; PyStr " "; PyStr "dog food"] [] 1 (PyStr " ")).
  - reflexivity.
  - reflexivity.
  - intros [|j] q Hj Hq; [|lia]. injection Hq as <-.
    exists Sample.vec_cat. do 2 eexists. repeat split; reflexivity.
  - apply fails_transport.
  - reflexivity.
Defined.

(** X8. When the first failing request is answered with status 200 and a
    JSON object without an [embedding] key, the cause is the [KeyError] of
    the subscription, and the message of the uniform error ends in the
    quoted key: "Failed to get embedding from Ollama: 'embedding'". *)
Theorem missing_embedding_key (env : Env) (self : OllamaEmbedder)
    (inputs prompts : list pyval) (tr : list Event) (i : nat) (p : pyval)
    (r : Response) (d : list (string * pyval)) :
  clean_inputs inputs = Ok prompts ->
  prompts !! i = Some p ->
  (forall j q, (j < i)%nat -> prompts !! j = Some q ->
     exists v,
       request_succeeds (http env (count_posts tr + j) (request_for self q)) v) ->
  http env (count_posts tr + i) (request_for self p) = PostReturns r ->
  status r = 200 ->
  json r = Ok (PyDict d) ->
  dict_get "embedding" d = None ->
  fst (ingest_embed env self inputs tr)
  = Raise (Exn RuntimeError
             "Failed to get embedding from Ollama: 'embedding'").
Proof.
  intros Hc Hp Hbefore Ho Hs Hj Hd.
  assert (Hne : inputs <> []).
  { intros ->. injection Hc as <-. discriminate. }
  assert (Hfail : request_fails
                    (http env (count_posts tr + i) (request_for self p))
                    (Exn KeyError "'embedding'")).
  { rewrite Ho. apply (fails_malformed r (PyDict d)); auto.
    simpl. now rewrite Hd. }
  destruct (loop_result_first_failure env self prompts (count_posts tr) []
              i p _ Hp Hbefore Hfail) as [Hr _].
  unfold ingest_embed.
  now rewrite (embed_loop_raises env self inputs prompts _ tr Hne Hc Hr).
Qed.

(** X8 at a service that answers [{"error": "model not found"}] with
    status 200. *)
Lemma missing_embedding_key_witness :
  fst (ingest_embed Scenario.keyless_service Sample.plain_client
         [PyStr "cat"] [])
  = Raise (Exn RuntimeError
             "Failed to get embedding from Ollama: 'embedding'").
Proof.
  apply (missing_embedding_key Scenario.keyless_service Sample.plain_client
           [PyStr "cat"] [PyStr "cat"] [] 0 (PyStr "cat")
           {| status := 200;
              json := Ok (PyDict [("error", PyStr "model not found")]);
              text := Ok "" |}
           [("error", PyStr "model not found")]);
    try reflexivity.
  intros j q Hj. lia.
Defined.

(** X9. A list that a constructed client returns is complete: it has one
    vector per input, and the vector at position [i] is the [embedding]
    field of the successful answer to the request for input [i].  A call
    never returns a shorter, longer or padded list. *)
Theorem returned_list_is_complete (env : Env) (self : OllamaEmbedder)
    (inputs vecs : list pyval) (tr tr' : list Event) :
  constructed self ->
  ingest_embed env self inputs tr = (Ok vecs, tr') ->
  length vecs = length inputs
  /\ forall i x, inputs !! i = Some x ->
       exists v, vecs !! i = Some v
         /\ item_succeeds env self (count_posts tr + i) x v.
Proof.
  intros Hself Hrun. unfold ingest_embed in Hrun.
  destruct inputs as [|x0 xs].
  { injection Hrun as <- _. split; [reflexivity|]. intros i x Hi. discriminate. }
  destruct (embed_returned_inv env self (x0 :: xs) tr tr' vecs Hself)
    as (prompts & evs & Hc & Hl & _); [discriminate|exact Hrun|].
  destruct (loop_result_Ok_inv env self prompts _ _ _ Hl) as [_ Hall].
  destruct (loop_result_all_ok env self prompts (count_posts tr) [] Hall)
    as (vs & Hr & _ & Hlen & Hvs).
  assert (vs = vecs) as -> by (simpl in Hr; congruence).
  split.
  - rewrite Hlen. now apply clean_inputs_lookup.
  - intros i x Hx.
    destruct (clean_inputs_item _ _ _ _ Hc Hx) as (p & Hp & Hxp).
    destruct (Hvs i p Hp) as (v & Hv & Hs).
    exists v. split; [exact Hv|]. exists p. auto.
Qed.

(** X9 at the scenario [["cat", "", "dog\nfood"]]. *)
Lemma returned_list_is_complete_witness :
  length [Sample.vec_cat; Sample.vec_space; Sample.vec_dogfood]
  = length Sample.cat_space_dogfood
  /\ forall i x, Sample.cat_space_dogfood !! i = Some x ->
       exists v,
         [Sample.vec_cat; Sample.vec_space; Sample.vec_dogfood] !! i = Some v
         /\ item_succeeds Sample.good_service Sample.plain_client
              (count_posts [] + i) x v.
Proof.
  apply (returned_list_is_complete Sample.good_service Sample.plain_client
           Sample.cat_space_dogfood
           [Sample.vec_cat; Sample.vec_space; Sample.vec_dogfood] []
           (snd (ingest_embed Sample.good_service Sample.plain_client
                   Sample.cat_space_dogfood []))).
  - exists Sample.default_config, [], []. reflexivity.
  - reflexivity.
Defined.

(** X10. Cleaning is idempotent: the cleaned inputs clean to themselves, so a
    prompt that was sent once would be sent unchanged if it were given as an
    input. *)
Theorem cleaning_is_idempotent (inputs prompts : list pyval) :
  clean_inputs inputs = Ok prompts ->
  clean_inputs prompts = Ok prompts.
Proof.
  revert prompts. induction inputs as [|x xs IH]; intros prompts H;
    simpl in H.
  - now injection H as <-.
  - destruct (clean_input x) as [p|e] eqn:Hx; [|discriminate].
    destruct (clean_inputs xs) as [ps|e] eqn:Hxs; [|discriminate].
    injection H as <-. simpl. rewrite (IH ps eq_refl).
    assert (Hp : clean_input p = Ok p).
    { apply clean_input_Ok in Hx as [[_ ->]|(s & _ & Hs & ->)];
        [reflexivity|].
      unfold clean_input.
      assert (Hn : newlines_to_spaces s <> "")
        by (destruct s; [contradiction|discriminate]).
      rewrite (proj2 (truthy_str _) Hn). simpl.
      now rewrite replace_newline_spec, newlines_to_spaces_idem. }
    now rewrite Hp.
Qed.

(** X10 at [[None, "dog\nfood"]]. *)
Lemma cleaning_is_idempotent_witness :
  clean_inputs [PyStr " "; PyStr "dog food"]
  = Ok [PyStr " "; PyStr "dog food"].
Proof.
  apply (cleaning_is_idempotent
           [PyNone; PyStr ("dog" +:+ String LF "food")]).
  reflexivity.
Defined.

(** X11. A call depends on its inputs only through their cleaned form: two
    input lists that clean alike (the same prompts, or the same error) give
    the same result and the same events.  The service, the metrics and the
    caller cannot tell a newline from a space, nor [None], [0] or [[]] from
    the empty string. *)
Theorem same_prompts_same_call (env : Env) (self : OllamaEmbedder)
    (xs ys : list pyval) (tr : list Event) :
  clean_inputs xs = clean_inputs ys ->
  ingest_embed env self xs tr = ingest_embed env self ys tr.
Proof.
  intros H. unfold ingest_embed.
  destruct (clean_inputs ys) as [ps|e] eqn:Hys.
  - pose proof (clean_inputs_lookup _ _ H) as [Hlx _].
    pose proof (clean_inputs_lookup _ _ Hys) as [Hly _].
    destruct xs as [|x xs], ys as [|y ys];
      try (simpl in *; lia); [reflexivity|].
    unfold _embed. rewrite H, Hys.
    replace (length (x :: xs)) with (length (y :: ys)) by lia.
    reflexivity.
  - rewrite (embed_unclean env self xs e tr H).
    now rewrite (embed_unclean env self ys e tr Hys).
Qed.

(** X11 at [[None, "a\nb"]] and [["", "a b"]]. *)
Lemma same_prompts_same_call_witness :
  ingest_embed Sample.good_service Sample.metered_client
    [PyNone; PyStr ("a" +:+ String LF "b")] []
  = ingest_embed Sample.good_service Sample.metered_client
      [PyStr ""; PyStr "a b"] [].
Proof.
  apply (same_prompts_same_call Sample.good_service Sample.metered_client
           [PyNone; PyStr ("a" +:+ String LF "b")] [PyStr ""; PyStr "a b"] []).
  reflexivity.
Defined.

(** X12. Splitting a batch does not change the vectors: if a call on [xs]
    returns [vx] and a call on [ys] right after it returns [vy], then one
    call on [xs ++ ys] from the same start returns [vx ++ vy], whatever the
    service (its answers may depend on how many requests it has seen). *)
Theorem split_batch_same_vectors (env : Env) (self : OllamaEmbedder)
    (xs ys vx vy : list pyval) (tr tr1 tr2 : list Event) :
  constructed self ->
  ingest_embed env self xs tr = (Ok vx, tr1) ->
  ingest_embed env self ys tr1 = (Ok vy, tr2) ->
  fst (ingest_embed env self (xs ++ ys) tr) = Ok (vx ++ vy).
Proof.
  intros Hself Hx Hy. unfold ingest_embed in *.
  destruct xs as [|x0 xs'].
  { injection Hx as <- <-. simpl app. now rewrite Hy. }
  destruct ys as [|y0 ys'].
  { injection Hy as <- _. rewrite !app_nil_r. now rewrite Hx. }
  destruct (embed_returned_inv env self (x0 :: xs') tr tr1 vx Hself
              ltac:(discriminate) Hx) as (px & evx & Hcx & Hlx & Hmx & ->).
  destruct (embed_returned_inv env self (y0 :: ys') _ tr2 vy Hself
              ltac:(discriminate) Hy) as (py & evy & Hcy & Hly & _ & _).
  destruct (loop_result_Ok_inv env self px _ _ _ Hlx) as [Hposts _].
  assert (Hk : count_posts
                 (tr ++ session_events env self tr px
                     ++ EMonotonic (monotonic env (S (count_clock tr))) :: evx)
               = (count_posts tr + length px)%nat).
  { rewrite !count_posts_app, session_events_posts, Hposts.
    change (count_posts (EMonotonic ?t :: ?l)) with (count_posts l).
    rewrite (metrics_events_no_post self _ _ _ _ Hmx). lia. }
  rewrite Hk in Hly.
  assert (Hc : clean_inputs ((x0 :: xs') ++ y0 :: ys') = Ok (px ++ py)).
  { now rewrite clean_inputs_app, Hcx, Hcy. }
  assert (Hl : loop_result env self (count_posts tr) (px ++ py) []
               = Ok (vx ++ vy)).
  { rewrite loop_result_app, Hlx, loop_result_acc, Hly. reflexivity. }
  destruct (constructed_metrics self (length ((x0 :: xs') ++ y0 :: ys'))
              (monotonic env (count_clock tr))
              (monotonic env (S (count_clock tr))) Hself) as [evs Hm].
  now rewrite (embed_loop_returns env self ((x0 :: xs') ++ y0 :: ys')
                 (px ++ py) (vx ++ vy) evs tr ltac:(discriminate) Hc Hl Hm).
Qed.

(** X12 at [["a"]] followed by [["b", "c"]], with a service that numbers its
    answers. *)
Lemma split_batch_same_vectors_witness :
  fst (ingest_embed Scenario.counting_service Sample.metered_client
         ([PyStr "a"] ++ [PyStr "b"; PyStr "c"]) [])
  = Ok ([PyList [PyInt 0]] ++ [PyList [PyInt 1]; PyList [PyInt 2]]).
Proof.
  apply (split_batch_same_vectors Scenario.counting_service
           Sample.metered_client [PyStr "a"] [PyStr "b"; PyStr "c"]
           [PyList [PyInt 0]] [PyList [PyInt 1]; PyList [PyInt 2]] []
           (snd (ingest_embed Scenario.counting_service Sample.metered_client
                   [PyStr "a"] []))
           (snd (ingest_embed Scenario.counting_service Sample.metered_client
                   [PyStr "b"; PyStr "c"]
                   (snd (ingest_embed Scenario.counting_service
                           Sample.metered_client [PyStr "a"] []))))).
  - exists Sample.metrics_config, [],
      [EGetCounter Sample.usage_counter; EGetSummary Sample.latency_summary].
    reflexivity.
  - reflexivity.
  - reflexivity.
Defined.

(** X13. Whatever a client built by [__init__] emits, it emits with labels
    that fit the metric: every increment and every observation of a call
    carries a labels mapping whose keys are exactly the label names the
    metric was registered with. *)
Theorem emitted_labels_fit_registration (env : Env) (config : Config)
    (tr0 tr1 : list Event) (self : OllamaEmbedder) (inputs : list pyval)
    (tr delta : list Event) :
  __init__ config tr0 = (Ok self, tr1) ->
  snd (ingest_embed env self inputs tr) = tr ++ delta ->
  (forall c n labels,
     In (EIncrement c n labels) delta ->
     call_keys labels = Ok (metric_label_names c))
  /\ (forall m t labels,
        In (EObserve m t labels) delta ->
        call_keys labels = Ok (metric_label_names m)).
Proof.
  intros Hinit Hd.
  assert (Hself : constructed self) by (exists config, tr0, tr1; exact Hinit).
  unfold ingest_embed in Hd.
  destruct inputs as [|x0 xs].
  { simpl in Hd. rewrite <- (app_nil_r tr) in Hd at 1.
    apply app_inv_head in Hd as <-. split; intros ? ? ? []. }
  destruct (embed_shape env self (x0 :: xs) tr Hself)
    as (r & delta' & Hrun & Hsh); [discriminate|].
  rewrite Hrun in Hd. simpl in Hd. apply app_inv_head in Hd as ->.
  assert (Hquiet : forall ev prompts,
            In ev (session_events env self tr prompts) ->
            is_metric ev = true -> False).
  { intros ev prompts Hin Hmet.
    assert (Hf : In ev (List.filter is_metric
                          (session_events env self tr prompts)))
      by (apply List.filter_In; auto).
    now rewrite session_events_metric in Hf. }
  destruct Hsh as [e He|prompts e Hc Hl|prompts vs evs Hc Hl Hm].
  - split; intros ? ? ? [].
  - split; intros ? ? ? Hin; destruct (Hquiet _ _ Hin eq_refl).
  - unfold metrics_events in Hm.
    destruct (_collect_metrics self) eqn:Hon.
    + destruct (init_enabled config tr0 tr1 self Hinit Hon)
        as (o & names & _ & _ & Hk & Hlab & Hcnt & Hsum).
      rewrite Hcnt, Hlab, Hsum in Hm. injection Hm as <-.
      split; intros ? ? ? Hin;
        (apply in_app_or in Hin as [Hin|Hin];
         [destruct (Hquiet _ _ Hin eq_refl)|]);
        destruct Hin as [Hin|[Hin|[Hin|[]]]]; try discriminate;
        injection Hin as <- _ <-; exact Hk.
    + injection Hm as <-.
      split; intros ? ? ? Hin;
        (apply in_app_or in Hin as [Hin|Hin];
         [destruct (Hquiet _ _ Hin eq_refl)|]);
        destruct Hin as [Hin|[]]; discriminate.
Qed.

(** X13 at three inputs that all succeed, with the labels
    [{"service": "memmachine"}]. *)
Lemma emitted_labels_fit_registration_witness :
  call_keys Sample.labels = Ok (metric_label_names Sample.usage_counter)
  /\ call_keys Sample.labels = Ok (metric_label_names Sample.latency_summary).
Proof.
  destruct (emitted_labels_fit_registration Sample.good_service
              Sample.metrics_config []
              [EGetCounter Sample.usage_counter;
               EGetSummary Sample.latency_summary]
              Sample.metered_client Sample.cat_space_dogfood []
              (snd (ingest_embed Sample.good_service Sample.metered_client
                      Sample.cat_space_dogfood []))
              eq_refl eq_refl) as [Hinc Hobs].
  split.
  - apply (Hinc Sample.usage_counter 3 Sample.labels).
    do 10 right. left. reflexivity.
  - apply (Hobs Sample.latency_summary 2.5%float Sample.labels).
    do 11 right. left. reflexivity.
Defined.
